(** * Production-line controller: model of [production_line_control.py]

    The Python class [ProductionLine] is embedded as a record of its
    attributes together with a small effect monad.  A computation takes the
    current attribute record and returns an outcome (a value or a raised
    exception), the attribute record at exit and the list of effects it
    performed, in program order: lock operations, attribute reads and
    writes, observer call-backs, log records, sleeps and thread starts.

    Numbers that are [float] in Python ([production_rate], [uptime], the
    clock and the pseudo-random draws) are modelled as exact rationals [Q];
    Python [int]s are [Z].  The values returned by [random.random()] and
    [time.time()] are inputs of the model.

    The worker loop is followed for a given list of ticks, one per
    iteration.  A line has one worker thread; the controlling thread may call
    [stop_production] while the worker sleeps between two cycles.  Observers
    return normally from [update] and do not touch the line; the part on the
    observer classes and [main] lets an observer fail. *)

From Stdlib Require Import ZArith QArith Bool List String Lia Lqa.
Import ListNotations.
Open Scope Z_scope.

(** ** Numeric helpers *)

(** [x < y] on rationals, as a boolean. *)
Definition Qltb (x y : Q) : bool := negb (Qle_bool y x).

(** Python's [int(x)] on a float: truncation toward zero. *)
Definition int (q : Q) : Z := Z.quot (Qnum q) (Zpos (Qden q)).

(** [random.uniform(a, b)] is [a + (b - a) * random()]; [u] is the value of
    the underlying [random()] call. *)
Definition uniform (a b u : Q) : Q := (a + (b - a) * u)%Q.

(** ** Data model *)

(** [class Configuration]: the attributes set by [_load_config]. *)
Record Configuration := {
  max_speed : Q;
  error_threshold : Q;
  maintenance_interval : Q;
  sensor_count : Z
}.

Definition _load_config : Configuration :=
  {| max_speed := 100;
     error_threshold := 5 # 100;
     maintenance_interval := 3600;
     sensor_count := 4 |}.

(** [class MachineState]. *)
Inductive MachineState := IDLE | RUNNING | ERROR | MAINTENANCE.

Definition MachineState_eqb (a b : MachineState) : bool :=
  match a, b with
  | IDLE, IDLE | RUNNING, RUNNING | ERROR, ERROR | MAINTENANCE, MAINTENANCE => true
  | _, _ => false
  end.

(** An observer object: its identity and the name of its class. *)
Record Observer := { obs_id : nat; obs_class : string }.

(** The [metrics] dictionary built by [notify_observers]. *)
Record Metrics := {
  m_production_rate : Q;
  m_error_count : Z;
  m_total_produced : Z;
  m_uptime : Q
}.

(** The [metrics_history] dictionary: four lists under fixed keys. *)
Record MetricsHistory := {
  h_time : list Q;
  h_production_rate : list Q;
  h_error_count : list Z;
  h_total_produced : list Z
}.

(** The attributes of a [ProductionLine] instance ([_lock] is represented by
    the [Acquire]/[Release] effects below). *)
Record ProductionLine := {
  config : Configuration;
  state : MachineState;
  production_rate : Q;
  error_count : Z;
  total_produced : Z;
  uptime : Q;
  start_time : Q;
  observers : list Observer;
  _running : bool;
  metrics_history : MetricsHistory
}.

(** [ProductionLine.__init__]; [cfg] is what [Configuration()] returns and
    [now] the value of [time.time()]. *)
Definition __init__ (cfg : Configuration) (now : Q) : ProductionLine :=
  {| config := cfg;
     state := IDLE;
     production_rate := 0;
     error_count := 0;
     total_produced := 0;
     uptime := 0;
     start_time := now;
     observers := [];
     _running := false;
     metrics_history :=
       {| h_time := []; h_production_rate := [];
          h_error_count := []; h_total_produced := [] |} |}.

(** Attribute assignment. *)
Definition set_state (v : MachineState) (l : ProductionLine) : ProductionLine :=
  {| config := config l; state := v; production_rate := production_rate l;
     error_count := error_count l; total_produced := total_produced l;
     uptime := uptime l; start_time := start_time l; observers := observers l;
     _running := _running l; metrics_history := metrics_history l |}.

Definition set_production_rate (v : Q) (l : ProductionLine) : ProductionLine :=
  {| config := config l; state := state l; production_rate := v;
     error_count := error_count l; total_produced := total_produced l;
     uptime := uptime l; start_time := start_time l; observers := observers l;
     _running := _running l; metrics_history := metrics_history l |}.

Definition set_error_count (v : Z) (l : ProductionLine) : ProductionLine :=
  {| config := config l; state := state l; production_rate := production_rate l;
     error_count := v; total_produced := total_produced l;
     uptime := uptime l; start_time := start_time l; observers := observers l;
     _running := _running l; metrics_history := metrics_history l |}.

Definition set_total_produced (v : Z) (l : ProductionLine) : ProductionLine :=
  {| config := config l; state := state l; production_rate := production_rate l;
     error_count := error_count l; total_produced := v;
     uptime := uptime l; start_time := start_time l; observers := observers l;
     _running := _running l; metrics_history := metrics_history l |}.

Definition set_uptime (v : Q) (l : ProductionLine) : ProductionLine :=
  {| config := config l; state := state l; production_rate := production_rate l;
     error_count := error_count l; total_produced := total_produced l;
     uptime := v; start_time := start_time l; observers := observers l;
     _running := _running l; metrics_history := metrics_history l |}.

Definition set_observers (v : list Observer) (l : ProductionLine) : ProductionLine :=
  {| config := config l; state := state l; production_rate := production_rate l;
     error_count := error_count l; total_produced := total_produced l;
     uptime := uptime l; start_time := start_time l; observers := v;
     _running := _running l; metrics_history := metrics_history l |}.

Definition set_running (v : bool) (l : ProductionLine) : ProductionLine :=
  {| config := config l; state := state l; production_rate := production_rate l;
     error_count := error_count l; total_produced := total_produced l;
     uptime := uptime l; start_time := start_time l; observers := observers l;
     _running := v; metrics_history := metrics_history l |}.

Definition set_metrics_history (v : MetricsHistory) (l : ProductionLine) : ProductionLine :=
  {| config := config l; state := state l; production_rate := production_rate l;
     error_count := error_count l; total_produced := total_produced l;
     uptime := uptime l; start_time := start_time l; observers := observers l;
     _running := _running l; metrics_history := v |}.

(** [self.metrics_history[key].append(v)], one function per key. *)
Definition append_time (v : Q) (h : MetricsHistory) : MetricsHistory :=
  {| h_time := h_time h ++ [v]; h_production_rate := h_production_rate h;
     h_error_count := h_error_count h; h_total_produced := h_total_produced h |}.

Definition append_production_rate (v : Q) (h : MetricsHistory) : MetricsHistory :=
  {| h_time := h_time h; h_production_rate := h_production_rate h ++ [v];
     h_error_count := h_error_count h; h_total_produced := h_total_produced h |}.

Definition append_error_count (v : Z) (h : MetricsHistory) : MetricsHistory :=
  {| h_time := h_time h; h_production_rate := h_production_rate h;
     h_error_count := h_error_count h ++ [v]; h_total_produced := h_total_produced h |}.

Definition append_total_produced (v : Z) (h : MetricsHistory) : MetricsHistory :=
  {| h_time := h_time h; h_production_rate := h_production_rate h;
     h_error_count := h_error_count h; h_total_produced := h_total_produced h ++ [v] |}.

(** ** Effects *)

Inductive Field :=
| f_config | f_state | f_production_rate | f_error_count | f_total_produced
| f_uptime | f_start_time | f_observers | f_running | f_metrics_history.

Inductive LogLevel := LOG_INFO | LOG_WARNING | LOG_ERROR.

(** What a method does besides computing, in program order.  [Write f l]
    records an assignment to (or in-place mutation of) attribute [f]
    together with the attribute record [l] right after it. *)
Inductive Event :=
| Acquire
| Release
| Read (f : Field)
| Write (f : Field) (after : ProductionLine)
| Update (o : Observer) (s : MachineState) (m : Metrics)
| Spawn
| Sleep (seconds : Q)
| Log (lvl : LogLevel) (msg : string).

Inductive Exn := RuntimeError (msg : string).

Definition str (e : Exn) : string := match e with RuntimeError msg => msg end.

Inductive Outcome (A : Type) :=
| Ok (a : A)
| Raise (e : Exn).
Arguments Ok {A} a.
Arguments Raise {A} e.

Definition M (A : Type) : Type :=
  ProductionLine -> Outcome A * ProductionLine * list Event.

Definition ret {A} (a : A) : M A := fun l => (Ok a, l, []).

Definition bind {A B} (m : M A) (k : A -> M B) : M B :=
  fun l =>
    match m l with
    | (Ok a, l1, e1) =>
        match k a l1 with (r, l2, e2) => (r, l2, e1 ++ e2) end
    | (Raise x, l1, e1) => (Raise x, l1, e1)
    end.

Declare Scope py_scope.
Delimit Scope py_scope with py.
Notation "x <- m ;; k" := (bind m (fun x => k))
  (at level 61, m at next level, right associativity) : py_scope.
Notation "m ;; k" := (bind m (fun _ => k))
  (at level 61, right associativity) : py_scope.
Open Scope py_scope.

Definition raise {A} (x : Exn) : M A := fun l => (Raise x, l, []).

Definition emit (ev : Event) : M unit := fun l => (Ok tt, l, [ev]).

(** [self.f] *)
Definition read {A} (f : Field) (proj : ProductionLine -> A) : M A :=
  fun l => (Ok (proj l), l, [Read f]).

(** [self.f = v], or a mutation of the object held in [self.f] *)
Definition write (f : Field) (upd : ProductionLine -> ProductionLine) : M unit :=
  fun l => (Ok tt, upd l, [Write f (upd l)]).

(** [with self._lock: body]: the lock is released however the body ends. *)
Definition with_lock {A} (body : M A) : M A :=
  fun l =>
    match body l with
    | (r, l1, e1) => (r, l1, Acquire :: e1 ++ [Release])
    end.

(** [try: body except Exception as e: handler e] *)
Definition try_except {A} (body : M A) (handler : Exn -> M A) : M A :=
  fun l =>
    match body l with
    | (Ok a, l1, e1) => (Ok a, l1, e1)
    | (Raise x, l1, e1) =>
        match handler x l1 with (r, l2, e2) => (r, l2, e1 ++ e2) end
    end.

(** [for x in xs: body x] *)
Fixpoint for_each {A} (xs : list A) (body : A -> M unit) : M unit :=
  match xs with
  | [] => ret tt
  | x :: rest => body x ;; for_each rest body
  end.

Definition log (lvl : LogLevel) (msg : string) : M unit := emit (Log lvl msg).
Definition sleep (seconds : Q) : M unit := emit (Sleep seconds).

(** Projections of a run. *)
Definition outcome {A} (m : M A) (l : ProductionLine) : Outcome A := fst (fst (m l)).
Definition final {A} (m : M A) (l : ProductionLine) : ProductionLine := snd (fst (m l)).
Definition events {A} (m : M A) (l : ProductionLine) : list Event := snd (m l).

(** ** The methods of [ProductionLine] *)

Definition register_observer (observer : Observer) : M unit :=
  obs <- read f_observers observers ;;
  write f_observers (set_observers (obs ++ [observer])) ;;
  log LOG_INFO ("Registered observer: " ++ obs_class observer)%string.

(** The observers are assumed to return normally from [update] and to leave
    the line alone: a call-back is the effect [Update]. *)
Definition notify_observers : M unit :=
  pr <- read f_production_rate production_rate ;;
  ec <- read f_error_count error_count ;;
  tp <- read f_total_produced total_produced ;;
  up <- read f_uptime uptime ;;
  let metrics := {| m_production_rate := pr; m_error_count := ec;
                    m_total_produced := tp; m_uptime := up |} in
  obs <- read f_observers observers ;;
  for_each obs (fun observer =>
    st <- read f_state state ;;
    emit (Update observer st metrics)).

(** The early [return] inside the [with] block is the [false] branch. *)
Definition start_production : M unit :=
  started <- with_lock (
    st <- read f_state state ;;
    if negb (MachineState_eqb st IDLE) then
      log LOG_WARNING "Cannot start: Machine not in IDLE state" ;;
      ret false
    else
      write f_state (set_state RUNNING) ;;
      write f_running (set_running true) ;;
      log LOG_INFO "Production line started" ;;
      ret true) ;;
  if started then
    notify_observers ;;
    emit Spawn
  else ret tt.

Definition stop_production : M unit :=
  stopped <- with_lock (
    st <- read f_state state ;;
    if negb (MachineState_eqb st RUNNING) then
      log LOG_WARNING "Cannot stop: Machine not in RUNNING state" ;;
      ret false
    else
      write f_running (set_running false) ;;
      write f_state (set_state IDLE) ;;
      log LOG_INFO "Production line stopped" ;;
      ret true) ;;
  if stopped then notify_observers else ret tt.

(** [r] is the value of [random.random()] and [u] the draw underlying
    [random.uniform(0.8, 1.0)]. *)
Definition _simulate_production_cycle (r u : Q) : M unit :=
  with_lock (
    cfg <- read f_config config ;;
    (if Qltb r (error_threshold cfg) then
       ec <- read f_error_count error_count ;;
       write f_error_count (set_error_count (ec + 1)) ;;
       log LOG_WARNING "Production error detected" ;;
       ec' <- read f_error_count error_count ;;
       if ec' >? 5 then raise (RuntimeError "Too many errors") else ret tt
     else ret tt) ;;
    cfg' <- read f_config config ;;
    write f_production_rate
      (set_production_rate (uniform (8 # 10) 1 u * max_speed cfg')%Q) ;;
    tp <- read f_total_produced total_produced ;;
    pr <- read f_production_rate production_rate ;;
    write f_total_produced (set_total_produced (tp + int (pr / 60)%Q))).

Definition _perform_maintenance : M unit :=
  with_lock (
    write f_state (set_state MAINTENANCE) ;;
    log LOG_INFO "Starting maintenance" ;;
    notify_observers ;;
    sleep 5 ;;
    write f_error_count (set_error_count 0) ;;
    write f_state (set_state RUNNING) ;;
    log LOG_INFO "Maintenance completed" ;;
    notify_observers).

(** [now] is the value of [time.time()]. *)
Definition _update_metrics (now : Q) : M unit :=
  st <- read f_start_time start_time ;;
  let current_time := (now - st)%Q in
  h <- read f_metrics_history metrics_history ;;
  write f_metrics_history (set_metrics_history (append_time current_time h)) ;;
  h <- read f_metrics_history metrics_history ;;
  pr <- read f_production_rate production_rate ;;
  write f_metrics_history (set_metrics_history (append_production_rate pr h)) ;;
  h <- read f_metrics_history metrics_history ;;
  ec <- read f_error_count error_count ;;
  write f_metrics_history (set_metrics_history (append_error_count ec h)) ;;
  h <- read f_metrics_history metrics_history ;;
  tp <- read f_total_produced total_produced ;;
  write f_metrics_history (set_metrics_history (append_total_produced tp h)).

(** What one iteration of the worker loop takes from outside: the two
    pseudo-random draws, the two clock readings, and whether the controlling
    thread calls [stop_production] while the worker sleeps. *)
Record Tick := {
  err_draw : Q;
  rate_draw : Q;
  now_uptime : Q;
  now_metrics : Q;
  stop_requested : bool
}.

(** How the observed part of a worker run ends: the loop was left ([Exited],
    by its condition or by [break]), or the given ticks are used up while the
    loop would go on ([Pending]). *)
Inductive LoopStatus := Exited | Pending.

(** The body of the [try] block. *)
Definition loop_body (t : Tick) : M bool :=
  _simulate_production_cycle (err_draw t) (rate_draw t) ;;
  st <- read f_start_time start_time ;;
  write f_uptime (set_uptime (now_uptime t - st)%Q) ;;
  up <- read f_uptime uptime ;;
  cfg <- read f_config config ;;
  (if Qle_bool (maintenance_interval cfg) up then _perform_maintenance
   else ret tt) ;;
  _update_metrics (now_metrics t) ;;
  notify_observers ;;
  sleep 1 ;;
  ret false.

(** The [except] block; its result [true] stands for [break]. *)
Definition loop_handler (e : Exn) : M bool :=
  log LOG_ERROR ("Production error: " ++ str e)%string ;;
  write f_state (set_state ERROR) ;;
  notify_observers ;;
  ret true.

(** The control call that may fall into the worker's sleep. *)
Definition stop_if (requested : bool) : M unit :=
  if requested then stop_production else ret tt.

(** One pass through the [try] statement. *)
Definition loop_iteration (t : Tick) : M bool :=
  try_except (loop_body t) loop_handler.

Fixpoint _run_production (ticks : list Tick) : M LoopStatus :=
  running <- read f_running _running ;;
  if negb running then ret Exited
  else
    match ticks with
    | [] => ret Pending
    | t :: rest =>
        broke <- loop_iteration t ;;
        if broke then ret Exited
        else
          stop_if (stop_requested t) ;;
          _run_production rest
    end.

(** A run of a line: [start_production()] and then the worker thread it
    started. *)
Definition run_line (ticks : list Tick) : M LoopStatus :=
  start_production ;;
  _run_production ticks.

(** The control surface used by a caller: a call of [start_production()]
    or of [stop_production()]. *)
Inductive Command := CmdStart | CmdStop.

Definition command (c : Command) : M unit :=
  match c with
  | CmdStart => start_production
  | CmdStop => stop_production
  end.

(** A sequence of control calls, with no worker cycle in between. *)
Definition commands (cs : list Command) : M unit := for_each cs command.

(** ** Reading the effect list *)

(** The attribute records a run passes through, one per write. *)
Fixpoint states_of (evs : list Event) : list ProductionLine :=
  match evs with
  | [] => []
  | Write _ l :: rest => l :: states_of rest
  | _ :: rest => states_of rest
  end.

(** The call-backs made, in order. *)
Fixpoint updates_of (evs : list Event) : list (Observer * MachineState * Metrics) :=
  match evs with
  | [] => []
  | Update o s m :: rest => (o, s, m) :: updates_of rest
  | _ :: rest => updates_of rest
  end.

(** The attributes that the lock is meant to protect. *)
Definition protected (f : Field) : bool :=
  match f with
  | f_state | f_error_count | f_total_produced | f_production_rate
  | f_metrics_history => true
  | _ => false
  end.

(** [lock_discipline held evs]: every read and write of a protected attribute
    in [evs] happens between an [Acquire] and the matching [Release];
    [held] tells whether the lock is held when [evs] starts. *)
Fixpoint lock_discipline (held : bool) (evs : list Event) : bool :=
  match evs with
  | [] => true
  | Acquire :: rest => lock_discipline true rest
  | Release :: rest => lock_discipline false rest
  | Read f :: rest | Write f _ :: rest =>
      (held || negb (protected f)) && lock_discipline held rest
  | _ :: rest => lock_discipline held rest
  end.

(** An access to an attribute: a read or a write. *)
Inductive Access := Rd (f : Field) | Wr (f : Field).

(** The accesses to protected attributes in [evs] that happen while the lock
    is not held, in program order. *)
Fixpoint unguarded (held : bool) (evs : list Event) : list Access :=
  match evs with
  | [] => []
  | Acquire :: rest => unguarded true rest
  | Release :: rest => unguarded false rest
  | Read f :: rest =>
      (if held || negb (protected f) then [] else [Rd f]) ++ unguarded held rest
  | Write f _ :: rest =>
      (if held || negb (protected f) then [] else [Wr f]) ++ unguarded held rest
  | _ :: rest => unguarded held rest
  end.

(** [path R l ss l']: starting from [l], the records [ss] are visited one
    after the other, each step is in [R], and the last record is [l']. *)
Inductive path (R : ProductionLine -> ProductionLine -> Prop) :
  ProductionLine -> list ProductionLine -> ProductionLine -> Prop :=
| path_nil : forall l, path R l [] l
| path_cons : forall l s ss l',
    R l s -> path R s ss l' -> path R l (s :: ss) l'.

(** The [metrics] dictionary that [notify_observers] builds in [l]. *)
Definition snapshot (l : ProductionLine) : Metrics :=
  {| m_production_rate := production_rate l;
     m_error_count := error_count l;
     m_total_produced := total_produced l;
     m_uptime := uptime l |}.

(** The effects of one [notify_observers] call in [l]. *)
Definition notify_events (l : ProductionLine) : list Event :=
  [Read f_production_rate; Read f_error_count; Read f_total_produced;
   Read f_uptime; Read f_observers]
  ++ flat_map (fun o => [Read f_state; Update o (state l) (snapshot l)])
       (observers l).

(** The history holds [n] entries: each of its four lists has length [n]. *)
Definition has_entries (n : nat) (l : ProductionLine) : Prop :=
  List.length (h_time (metrics_history l)) = n /\
  List.length (h_production_rate (metrics_history l)) = n /\
  List.length (h_error_count (metrics_history l)) = n /\
  List.length (h_total_produced (metrics_history l)) = n.

(** A value that [random.random()] can return. *)
Definition valid_draw (u : Q) : Prop := (0 <= u)%Q /\ (u < 1)%Q.

Definition idle_or_running (l : ProductionLine) : Prop :=
  state l = IDLE \/ state l = RUNNING.

(** ** Closed forms

    The list of records a method passes through, written out case by case;
    the lemmas of the next part show that the methods produce exactly
    these. *)

(** The error trigger fires. *)
Definition cycle_errs (r : Q) (l : ProductionLine) : bool :=
  Qltb r (error_threshold (config l)).

(** The cycle raises the fatal fault. *)
Definition cycle_faults (r : Q) (l : ProductionLine) : bool :=
  cycle_errs r l && (error_count l + 1 >? 5).

Definition cycle_rate (u : Q) (l : ProductionLine) : Q :=
  (uniform (8 # 10) 1 u * max_speed (config l))%Q.

Definition cycle_states (r u : Q) (l : ProductionLine) : list ProductionLine :=
  let l1 := set_error_count (error_count l + 1) l in
  let l2 := set_production_rate (cycle_rate u l)
              (if cycle_errs r l then l1 else l) in
  let l3 := set_total_produced
              (total_produced l + int (cycle_rate u l / 60)%Q) l2 in
  (if cycle_errs r l then [l1] else [])
  ++ (if cycle_faults r l then [] else [l2; l3]).

Definition maintenance_states (l : ProductionLine) : list ProductionLine :=
  let a := set_state MAINTENANCE l in
  let b := set_error_count 0 a in
  [a; b; set_state RUNNING b].

Definition update_states (now : Q) (l : ProductionLine) : list ProductionLine :=
  let h1 := append_time (now - start_time l)%Q (metrics_history l) in
  let h2 := append_production_rate (production_rate l) h1 in
  let h3 := append_error_count (error_count l) h2 in
  let h4 := append_total_produced (total_produced l) h3 in
  [set_metrics_history h1 l; set_metrics_history h2 l;
   set_metrics_history h3 l; set_metrics_history h4 l].

Definition start_states (l : ProductionLine) : list ProductionLine :=
  if MachineState_eqb (state l) IDLE
  then [set_state RUNNING l; set_running true (set_state RUNNING l)]
  else [].

Definition stop_states (l : ProductionLine) : list ProductionLine :=
  if MachineState_eqb (state l) RUNNING
  then [set_running false l; set_state IDLE (set_running false l)]
  else [].

(** The uptime computed in this iteration reaches the maintenance
    interval. *)
Definition maintenance_due (t : Tick) (l : ProductionLine) : bool :=
  Qle_bool (maintenance_interval (config l)) (now_uptime t - start_time l)%Q.

Definition iteration_states (t : Tick) (l : ProductionLine) : list ProductionLine :=
  let c := cycle_states (err_draw t) (rate_draw t) l in
  let l1 := last c l in
  if cycle_faults (err_draw t) l then c ++ [set_state ERROR l1]
  else
    let l2 := set_uptime (now_uptime t - start_time l)%Q l1 in
    let m := if maintenance_due t l then maintenance_states l2 else [] in
    c ++ [l2] ++ m ++ update_states (now_metrics t) (last m l2).

(** ** Operations on a line

    Whatever can act on a [ProductionLine]: the control calls, the private
    methods, and a whole run of the worker loop. *)
Inductive Op :=
| OpRegister (observer : Observer)
| OpStart
| OpStop
| OpCycle (r u : Q)
| OpMaintenance
| OpUpdateMetrics (now : Q)
| OpNotify
| OpWorker (ticks : list Tick).

Definition perform (op : Op) : M unit :=
  match op with
  | OpRegister o => register_observer o
  | OpStart => start_production
  | OpStop => stop_production
  | OpCycle r u => _simulate_production_cycle r u
  | OpMaintenance => _perform_maintenance
  | OpUpdateMetrics now => _update_metrics now
  | OpNotify => notify_observers
  | OpWorker ticks => _run_production ticks ;; ret tt
  end.

(** A sequence of operations; one that raises ends there and the sequence
    goes on with the next. *)
Fixpoint perform_all (ops : list Op) : M unit :=
  match ops with
  | [] => ret tt
  | op :: rest => try_except (perform op) (fun _ => ret tt) ;; perform_all rest
  end.

(** The draws an operation uses are values of [random.random()]. *)
Definition op_valid (op : Op) : Prop :=
  match op with
  | OpCycle r u => valid_draw u
  | OpWorker ticks => Forall (fun t => valid_draw (rate_draw t)) ticks
  | _ => True
  end.

(** [total_produced] does not go down from [a] to [b]. *)
Definition produced_le (a b : ProductionLine) : Prop :=
  total_produced a <= total_produced b.

(** A tick in which the error trigger fires, no maintenance is due and no
    stop is requested, for a line with configuration [cfg] created at
    [start]. *)
Definition forced_error_tick (cfg : Configuration) (start : Q) (t : Tick) : Prop :=
  Qltb (err_draw t) (error_threshold cfg) = true /\
  Qle_bool (maintenance_interval cfg) (now_uptime t - start)%Q = false /\
  stop_requested t = false.

(** A tick in which the error trigger does not fire and no stop is
    requested. *)
Definition error_free_tick (cfg : Configuration) (t : Tick) : Prop :=
  Qltb (err_draw t) (error_threshold cfg) = false /\
  valid_draw (rate_draw t) /\
  stop_requested t = false.

(** Sample inputs: a tick with the given draws at clock reading 1, and the
    default configuration with [error_threshold] set to 1.0. *)
Definition sample_tick (r u : Q) : Tick :=
  {| err_draw := r; rate_draw := u; now_uptime := 1; now_metrics := 1;
     stop_requested := false |}.

Definition forced_error_config : Configuration :=
  {| max_speed := max_speed _load_config;
     error_threshold := 1;
     maintenance_interval := maintenance_interval _load_config;
     sensor_count := sensor_count _load_config |}.

(** The two observers that [main] registers. *)
Definition visualizer : Observer := {| obs_id := 0; obs_class := "Visualizer" |}.
Definition data_logger : Observer := {| obs_id := 1; obs_class := "DataLogger" |}.

(** A line with [error_threshold = 1.0] and both observers registered, which
    was started and has run five cycles. *)
Definition five_errors_line : ProductionLine :=
  final (register_observer visualizer ;;
         register_observer data_logger ;;
         run_line (repeat (sample_tick 0 0) 5))
    (__init__ forced_error_config 0).

(** A step that keeps the configuration and does not lower
    [total_produced]. *)
Definition produced_step (a b : ProductionLine) : Prop :=
  config b = config a /\ total_produced a <= total_produced b.


(** ** More readers of the effect list *)

(** The lock along an effect list: [Some held'] when every [Acquire] finds
    the lock free and every [Release] finds it held, with [held'] its state
    at the end; [None] otherwise.  The lock is not re-entrant, so an
    [Acquire] while it is held would block for ever. *)
Fixpoint lock_trace (held : bool) (evs : list Event) : option bool :=
  match evs with
  | [] => Some held
  | Acquire :: rest => if held then None else lock_trace true rest
  | Release :: rest => if held then lock_trace false rest else None
  | _ :: rest => lock_trace held rest
  end.

(** The loop iterations that ran to their end: each one finishes with
    [time.sleep(1.0)]. *)
Fixpoint completed_iterations (evs : list Event) : nat :=
  match evs with
  | [] => 0
  | Sleep s :: rest =>
      ((if Qeq_bool s 1 then 1 else 0) + completed_iterations rest)%nat
  | _ :: rest => completed_iterations rest
  end.

(** The worker threads started. *)
Fixpoint threads_started (evs : list Event) : nat :=
  match evs with
  | [] => 0
  | Spawn :: rest => S (threads_started rest)
  | _ :: rest => threads_started rest
  end.

(** The stops that were taken: each clears the flag [_running]. *)
Fixpoint stops_taken (evs : list Event) : nat :=
  match evs with
  | [] => 0
  | Write f_running l :: rest =>
      ((if _running l then 0 else 1) + stops_taken rest)%nat
  | _ :: rest => stops_taken rest
  end.

(** The history of [l'] is that of [l] with the same number of values added
    at the end of each of its four lists. *)
Definition history_extends (l l' : ProductionLine) : Prop :=
  exists ts prs ecs tps,
    h_time (metrics_history l') = h_time (metrics_history l) ++ ts /\
    h_production_rate (metrics_history l')
    = h_production_rate (metrics_history l) ++ prs /\
    h_error_count (metrics_history l')
    = h_error_count (metrics_history l) ++ ecs /\
    h_total_produced (metrics_history l')
    = h_total_produced (metrics_history l) ++ tps /\
    List.length prs = List.length ts /\
    List.length ecs = List.length ts /\
    List.length tps = List.length ts.

(** ** The observer classes and [main]

    [notify_observers] above takes the observers to return normally.  The
    definitions of this part drop that: [update] is what an observer of each
    class does with a notification, and the [_checked] methods let its
    failure travel as Python does. *)

(** A value of the [metrics] dictionary. *)
Inductive Value := VFloat (q : Q) | VInt (z : Z).

(** The dictionary that [notify_observers] builds, with its keys. *)
Definition metrics_dict (m : Metrics) : list (string * Value) :=
  [("production_rate", VFloat (m_production_rate m));
   ("error_count", VInt (m_error_count m));
   ("total_produced", VInt (m_total_produced m));
   ("uptime", VFloat (m_uptime m))]%string.

(** [d[key]]: [None] stands for [KeyError(key)]. *)
Fixpoint dict_get (key : string) (d : list (string * Value)) : option Value :=
  match d with
  | [] => None
  | (k, v) :: rest => if String.eqb k key then Some v else dict_get key rest
  end.

(** The calls [Visualizer.update] makes on its plot. *)
Inductive PlotCall :=
| SetData (line : string) (xs ys : Value)
| Relim (ax : string)
| AutoscaleView (ax : string).

(** [Visualizer.update]: the key of the [KeyError] it raises, or the calls
    it makes.  The arguments of each [set_data] are looked up from left to
    right. *)
Definition Visualizer_update (st : MachineState) (metrics : list (string * Value))
  : string + list PlotCall :=
  match dict_get "time" metrics with
  | None => inl "time"%string
  | Some t1 =>
  match dict_get "production_rate" metrics with
  | None => inl "production_rate"%string
  | Some pr =>
  match dict_get "time" metrics with
  | None => inl "time"%string
  | Some t2 =>
  match dict_get "error_count" metrics with
  | None => inl "error_count"%string
  | Some ec =>
      inr [SetData "line_rate" t1 pr; SetData "line_errors" t2 ec;
           Relim "ax1"; AutoscaleView "ax1"; Relim "ax2"; AutoscaleView "ax2"]
  end end end end.

(** What can be raised once observers are taken into account. *)
Inductive PyError := Raised (e : Exn) | KeyError (key : string).

(** [str(e)]; for a [KeyError] it is the key in quotes. *)
Definition str_error (e : PyError) : string :=
  match e with
  | Raised x => str x
  | KeyError key => ("'" ++ key ++ "'")%string
  end.

(** [observer.update(state, metrics)] by the class of the observer: a
    [Visualizer] runs [Visualizer.update]; [DataLogger.update] keeps its
    failures to itself and [ProductionObserver.update] is [pass]. *)
Definition update (o : Observer) (st : MachineState) (m : Metrics)
  : PyError + unit :=
  if String.eqb (obs_class o) "Visualizer" then
    match Visualizer_update st (metrics_dict m) with
    | inl key => inl (KeyError key)
    | inr _ => inr tt
    end
  else inr tt.

(** Sequencing that stops at a failure. *)
Definition bind_checked {A B} (m : M (PyError + A)) (k : A -> M (PyError + B))
  : M (PyError + B) :=
  r <- m ;;
  match r with
  | inl e => ret (inl e)
  | inr a => k a
  end.

Fixpoint for_each_checked {A} (xs : list A) (body : A -> M (PyError + unit))
  : M (PyError + unit) :=
  match xs with
  | [] => ret (inr tt)
  | x :: rest => bind_checked (body x) (fun _ => for_each_checked rest body)
  end.

Definition notify_observers_checked : M (PyError + unit) :=
  pr <- read f_production_rate production_rate ;;
  ec <- read f_error_count error_count ;;
  tp <- read f_total_produced total_produced ;;
  up <- read f_uptime uptime ;;
  let metrics := {| m_production_rate := pr; m_error_count := ec;
                    m_total_produced := tp; m_uptime := up |} in
  obs <- read f_observers observers ;;
  for_each_checked obs (fun observer =>
    st <- read f_state state ;;
    emit (Update observer st metrics) ;;
    ret (update observer st metrics)).

Definition start_production_checked : M (PyError + unit) :=
  started <- with_lock (
    st <- read f_state state ;;
    if negb (MachineState_eqb st IDLE) then
      log LOG_WARNING "Cannot start: Machine not in IDLE state" ;;
      ret false
    else
      write f_state (set_state RUNNING) ;;
      write f_running (set_running true) ;;
      log LOG_INFO "Production line started" ;;
      ret true) ;;
  if started then
    bind_checked notify_observers_checked (fun _ =>
      emit Spawn ;;
      ret (inr tt))
  else ret (inr tt).

Definition stop_production_checked : M (PyError + unit) :=
  stopped <- with_lock (
    st <- read f_state state ;;
    if negb (MachineState_eqb st RUNNING) then
      log LOG_WARNING "Cannot stop: Machine not in RUNNING state" ;;
      ret false
    else
      write f_running (set_running false) ;;
      write f_state (set_state IDLE) ;;
      log LOG_INFO "Production line stopped" ;;
      ret true) ;;
  if stopped then notify_observers_checked else ret (inr tt).

(** [main], on the line it has just constructed and without a
    [KeyboardInterrupt]; [show_plot] is what [visualizer.start()] does. *)
Definition main (show_plot : M unit) : M unit :=
  r <- bind_checked
         (register_observer visualizer ;;
          register_observer data_logger ;;
          start_production_checked)
         (fun _ =>
            show_plot ;;
            sleep 30 ;;
            stop_production_checked) ;;
  match r with
  | inl e => log LOG_ERROR ("System error: " ++ str_error e)%string
  | inr _ => ret tt
  end.

(** The effects of the lock section of a start that is taken, and of a stop
    that is taken. *)
Definition start_prefix (l : ProductionLine) : list Event :=
  [Acquire; Read f_state; Write f_state (set_state RUNNING l);
   Write f_running (set_running true (set_state RUNNING l));
   Log LOG_INFO "Production line started"; Release].

Definition stop_prefix (l : ProductionLine) : list Event :=
  [Acquire; Read f_state; Write f_running (set_running false l);
   Write f_state (set_state IDLE (set_running false l));
   Log LOG_INFO "Production line stopped"; Release].

(** ** The configuration singleton *)

(** [Configuration()], that is [Configuration.__new__]: [inst] is the class
    attribute [_instance], [None] or the attributes of the one instance.
    The result is the instance returned, the class attribute afterwards and
    the effects (the lock here is the class lock). *)
Definition Configuration_new (inst : option Configuration)
  : Configuration * option Configuration * list Event :=
  match inst with
  | None =>
      (_load_config, Some _load_config,
       [Acquire; Log LOG_INFO "Configuration loaded"; Release])
  | Some c => (c, Some c, [Acquire; Release])
  end.

(** [n] calls of [Configuration()] in a row: the instances returned, the
    class attribute afterwards and the effects. *)
Fixpoint Configuration_calls (n : nat) (inst : option Configuration)
  : list Configuration * option Configuration * list Event :=
  match n with
  | O => ([], inst, [])
  | S k =>
      match Configuration_new inst with
      | (c, inst1, e1) =>
          match Configuration_calls k inst1 with
          | (cs, inst2, e2) => (c :: cs, inst2, e1 ++ e2)
          end
      end
  end.

(** The log records with the given message. *)
Fixpoint logged (msg : string) (evs : list Event) : nat :=
  match evs with
  | [] => 0
  | Log _ m :: rest => ((if String.eqb m msg then 1 else 0) + logged msg rest)%nat
  | _ :: rest => logged msg rest
  end.

(** Each element is below all the later ones. *)
Fixpoint ascending {A} (lt : A -> A -> Prop) (xs : list A) : Prop :=
  match xs with
  | [] => True
  | x :: rest => Forall (lt x) rest /\ ascending lt rest
  end.

(** The clock reading taken for the history goes up from tick to tick. *)
Definition clock_before (a b : Tick) : Prop := (now_metrics a < now_metrics b)%Q.

(** ** A weakest-precondition calculus for [M] *)

Definition wp {A} (m : M A)
  (Q : Outcome A -> ProductionLine -> list Event -> Prop)
  (l : ProductionLine) : Prop :=
  Q (outcome m l) (final m l) (events m l).

Section Calculus.
Context {A B : Type}.
Implicit Types (l : ProductionLine) (evs : list Event).

Lemma wp_ret (a : A) Q l : Q (Ok a) l [] -> wp (ret a) Q l.
Proof. exact (fun H => H). Qed.

Lemma wp_raise (x : Exn) (Q : Outcome A -> _) l :
  Q (Raise x) l [] -> wp (raise x) Q l.
Proof. exact (fun H => H). Qed.

Lemma wp_read (f : Field) (proj : ProductionLine -> A) Q l :
  Q (Ok (proj l)) l [Read f] -> wp (read f proj) Q l.
Proof. exact (fun H => H). Qed.

Lemma wp_bind (m : M A) (k : A -> M B) Q l :
  wp m (fun r l1 e1 =>
          match r with
          | Ok a => wp (k a) (fun r2 l2 e2 => Q r2 l2 (e1 ++ e2)) l1
          | Raise x => Q (Raise x) l1 e1
          end) l ->
  wp (bind m k) Q l.
Proof.
  unfold wp, outcome, final, events, bind.
  destruct (m l) as [[[a|x] l1] e1]; cbn; [|tauto].
  destruct (k a l1) as [[r2 l2] e2]; cbn; tauto.
Qed.

Lemma wp_with_lock (body : M A) Q l :
  wp body (fun r l1 e1 => Q r l1 (Acquire :: e1 ++ [Release])) l ->
  wp (with_lock body) Q l.
Proof.
  unfold wp, outcome, final, events, with_lock.
  destruct (body l) as [[r l1] e1]; cbn; tauto.
Qed.

Lemma wp_try_except (body : M A) (handler : Exn -> M A) Q l :
  wp body (fun r l1 e1 =>
             match r with
             | Ok a => Q (Ok a) l1 e1
             | Raise x => wp (handler x) (fun r2 l2 e2 => Q r2 l2 (e1 ++ e2)) l1
             end) l ->
  wp (try_except body handler) Q l.
Proof.
  unfold wp, outcome, final, events, try_except.
  destruct (body l) as [[[a|x] l1] e1]; cbn; [tauto|].
  destruct (handler x l1) as [[r2 l2] e2]; cbn; tauto.
Qed.

Lemma wp_mono (m : M A) (Q Q' : Outcome A -> _) l :
  wp m Q l -> (forall r l' evs, Q r l' evs -> Q' r l' evs) -> wp m Q' l.
Proof. unfold wp; auto. Qed.
End Calculus.

Lemma wp_write (f : Field) (upd : ProductionLine -> ProductionLine) Q l :
  Q (Ok tt) (upd l) [Write f (upd l)] -> wp (write f upd) Q l.
Proof. exact (fun H => H). Qed.

Lemma wp_emit (ev : Event) Q l : Q (Ok tt) l [ev] -> wp (emit ev) Q l.
Proof. exact (fun H => H). Qed.

Lemma for_each_updates (m : Metrics) (obs : list Observer) l :
  for_each obs (fun observer =>
    st <- read f_state state ;; emit (Update observer st m)) l
  = (Ok tt, l, flat_map (fun o => [Read f_state; Update o (state l) m]) obs).
Proof.
  induction obs as [|o obs IH]; [reflexivity|].
  cbn [for_each flat_map]. unfold bind at 1. cbn. rewrite IH. reflexivity.
Qed.

Lemma notify_observers_run l :
  notify_observers l = (Ok tt, l, notify_events l).
Proof.
  unfold notify_observers, notify_events.
  unfold bind at 1 2 3 4 5; cbn. rewrite for_each_updates. reflexivity.
Qed.

Lemma wp_notify_observers Q l :
  Q (Ok tt) l (notify_events l) -> wp notify_observers Q l.
Proof.
  unfold wp, outcome, final, events. rewrite notify_observers_run. exact (fun H => H).
Qed.

(** One step of symbolic execution. *)
Ltac wp_step :=
  lazymatch goal with
  | |- wp (bind _ _) _ _ => apply wp_bind
  | |- wp (ret _) _ _ => apply wp_ret
  | |- wp (raise _) _ _ => apply wp_raise
  | |- wp (read _ _) _ _ => apply wp_read
  | |- wp (write _ _) _ _ => apply wp_write
  | |- wp (emit _) _ _ => apply wp_emit
  | |- wp (log _ _) _ _ => apply wp_emit
  | |- wp (sleep _) _ _ => apply wp_emit
  | |- wp (with_lock _) _ _ => apply wp_with_lock
  | |- wp (try_except _ _) _ _ => apply wp_try_except
  | |- wp notify_observers _ _ => apply wp_notify_observers
  end; cbv beta iota.

Ltac wp_steps := repeat wp_step.

(** Turn a goal about the [outcome], [final] record and [events] of [m] in
    [l] into a [wp] goal. *)
Ltac to_wp m l :=
  pattern (outcome m l), (final m l), (events m l);
  lazymatch goal with |- ?Q _ _ _ => change (wp m Q l) end.

(** Continue from a fact [H] about the run of the computation at the head
    of the goal. *)
Ltac wp_use H :=
  lazymatch goal with
  | |- wp ?m _ ?l =>
      let H' := fresh in
      pose proof H as H'; cbv zeta in H';
      pattern (outcome m l), (final m l), (events m l) in H';
      lazymatch type of H' with
      | ?Q _ _ _ => apply (wp_mono m Q _ l H')
      end;
      clear H'; cbv beta
  end.

(** ** Arithmetic of the production rate *)

Lemma Qltb_true x y : Qltb x y = true <-> (x < y)%Q.
Proof.
  unfold Qltb. rewrite negb_true_iff. split; intro H.
  - apply Qnot_le_lt. intro C. apply Qle_bool_iff in C. congruence.
  - destruct (Qle_bool y x) eqn:E; [|reflexivity].
    apply Qle_bool_iff in E. exfalso. apply (Qlt_not_le _ _ H E).
Qed.

Lemma Qltb_false x y : Qltb x y = false <-> (y <= x)%Q.
Proof.
  unfold Qltb. rewrite negb_false_iff. apply Qle_bool_iff.
Qed.

Lemma int_nonneg q : (0 <= q)%Q -> 0 <= int q.
Proof.
  unfold int, Qle. cbn. intro H. apply Z.quot_pos; lia.
Qed.

Lemma int_between (z : Z) (q : Q) :
  0 <= z -> (inject_Z z <= q)%Q -> (q < inject_Z (z + 1))%Q -> int q = z.
Proof.
  unfold int, Qle, Qlt. cbn. intros Hz.
  generalize (Pos2Z.is_pos (Qden q)). generalize (Zpos (Qden q)).
  intros d Hd Hlo Hhi.
  rewrite Z.quot_div_nonneg by nia.
  symmetry. apply Z.div_unique with (r := Qnum q - z * d); nia.
Qed.

Lemma rate_nonneg u ms :
  (0 <= u)%Q -> (0 <= ms)%Q -> (0 <= uniform (8 # 10) 1 u * ms / 60)%Q.
Proof.
  intros Hu Hms. unfold Qdiv. change (/ 60)%Q with (1 # 60)%Q.
  apply Qmult_le_0_compat; [|discriminate].
  apply Qmult_le_0_compat; [|exact Hms].
  unfold uniform. lra.
Qed.

(** With [max_speed = 100] the rate lies in [80, 100] and every cycle adds
    one unit. *)
Lemma rate_default u ms :
  valid_draw u -> (ms == 100)%Q -> int (uniform (8 # 10) 1 u * ms / 60)%Q = 1.
Proof.
  intros [H0 H1] Hms. apply int_between; [lia| |];
    unfold uniform, Qdiv; rewrite Hms; change (/ 60)%Q with (1 # 60)%Q.
  - change (inject_Z 1) with 1%Q. lra.
  - change (inject_Z (1 + 1)) with 2%Q. lra.
Qed.

(** ** The production cycle *)

(** What [_simulate_production_cycle] does in each of its three cases. *)
Lemma cycle_cases r u l :
  let m := _simulate_production_cycle r u in
  let rate := (uniform (8 # 10) 1 u * max_speed (config l))%Q in
  if Qltb r (error_threshold (config l)) then
    if error_count l + 1 >? 5 then
      outcome m l = Raise (RuntimeError "Too many errors") /\
      final m l = set_error_count (error_count l + 1) l
    else
      outcome m l = Ok tt /\
      final m l =
        set_total_produced (total_produced l + int (rate / 60))
          (set_production_rate rate (set_error_count (error_count l + 1) l))
  else
    outcome m l = Ok tt /\
    final m l =
      set_total_produced (total_produced l + int (rate / 60))
        (set_production_rate rate l).
Proof.
  cbv zeta.
  destruct (Qltb r (error_threshold (config l))) eqn:Herr;
    [destruct (error_count l + 1 >? 5) eqn:Hfault|].
  all: to_wp (_simulate_production_cycle r u) l.
  all: unfold _simulate_production_cycle; wp_steps.
  all: rewrite Herr; wp_steps; cbn [error_count set_error_count];
       try rewrite Hfault; wp_steps.
  all: split; reflexivity.
Qed.

Lemma cycle_raise_inv r u l e :
  outcome (_simulate_production_cycle r u) l = Raise e ->
  Qltb r (error_threshold (config l)) = true /\
  (error_count l + 1 >? 5) = true /\
  e = RuntimeError "Too many errors" /\
  final (_simulate_production_cycle r u) l
  = set_error_count (error_count l + 1) l.
Proof.
  intro Hraise. pose proof (cycle_cases r u l) as H. cbv zeta in H.
  destruct (Qltb r (error_threshold (config l)));
    [destruct (error_count l + 1 >? 5)|];
    destruct H as [Hout Hfin]; rewrite Hout in Hraise;
    try discriminate.
  injection Hraise as <-. auto.
Qed.

(** The [metrics_history] is touched by [_update_metrics] alone, and the
    faulting iteration never reaches it. *)
Lemma iteration_after_raise t l e :
  outcome (_simulate_production_cycle (err_draw t) (rate_draw t)) l = Raise e ->
  let m := _simulate_production_cycle (err_draw t) (rate_draw t) in
  let l1 := set_state ERROR (final m l) in
  loop_iteration t l
  = (Ok true, l1,
     events m l
     ++ [Log LOG_ERROR ("Production error: " ++ str e)%string;
         Write f_state l1]
     ++ notify_events l1).
Proof.
  intros Hraise m l1.
  enough (wp (loop_iteration t)
            (fun r l' evs =>
               (r, l', evs)
               = (Ok true, l1,
                  events m l
                  ++ [Log LOG_ERROR ("Production error: " ++ str e)%string;
                      Write f_state l1]
                  ++ notify_events l1)) l) as H.
  { unfold wp, outcome, final, events in H.
    destruct (loop_iteration t l) as [[r l'] evs]. exact H. }
  unfold loop_iteration, loop_body. wp_step. wp_step.
  unfold wp at 1. fold m. unfold m at 1. rewrite Hraise. cbv beta iota.
  unfold loop_handler. wp_steps. cbn [app]. rewrite app_nil_r. reflexivity.
Qed.

(** ** Facts about effect lists *)

Lemma states_of_app a b : states_of (a ++ b) = states_of a ++ states_of b.
Proof.
  induction a as [|ev a IH]; [reflexivity|].
  destruct ev; cbn; rewrite IH; reflexivity.
Qed.

Lemma updates_of_app a b : updates_of (a ++ b) = updates_of a ++ updates_of b.
Proof.
  induction a as [|ev a IH]; [reflexivity|].
  destruct ev; cbn; rewrite IH; reflexivity.
Qed.

Lemma last_cons_default {A} (x : A) a d : last (x :: a) d = last a x.
Proof.
  revert x d; induction a as [|y a IH]; intros x d; [reflexivity|].
  change (last (y :: a) d = last (y :: a) x). rewrite !IH. reflexivity.
Qed.

Lemma last_app_default {A} (a b : list A) d :
  last (a ++ b) d = last b (last a d).
Proof.
  revert d; induction a as [|x a IH]; intro d; [reflexivity|].
  cbn [app]. rewrite !last_cons_default. apply IH.
Qed.

Lemma states_of_notify l : states_of (notify_events l) = [].
Proof.
  unfold notify_events. cbn.
  induction (observers l) as [|o os IH]; [reflexivity | exact IH].
Qed.



(** ** The methods produce their closed forms *)

Ltac states_norm :=
  cbn [app states_of updates_of];
  repeat (rewrite ?states_of_app, ?updates_of_app, ?states_of_notify,
            ?app_nil_r;
          cbn [app states_of updates_of]).

Lemma cycle_run r u l :
  let m := _simulate_production_cycle r u in
  outcome m l
  = (if cycle_faults r l then Raise (RuntimeError "Too many errors")
     else Ok tt) /\
  final m l = last (cycle_states r u l) l /\
  states_of (events m l) = cycle_states r u l.
Proof.
  cbv zeta. to_wp (_simulate_production_cycle r u) l.
  unfold _simulate_production_cycle, cycle_states, cycle_faults, cycle_errs,
    cycle_rate.
  wp_steps.
  destruct (Qltb r (error_threshold (config l))); wp_steps;
    cbn [error_count set_error_count andb];
    [destruct (error_count l + 1 >? 5); wp_steps|];
    repeat split; reflexivity.
Qed.

Lemma maintenance_run l :
  let m := _perform_maintenance in
  outcome m l = Ok tt /\
  final m l = last (maintenance_states l) l /\
  states_of (events m l) = maintenance_states l.
Proof.
  cbv zeta. to_wp _perform_maintenance l.
  unfold _perform_maintenance, maintenance_states. wp_steps. states_norm.
  repeat split; reflexivity.
Qed.

Lemma update_metrics_run now l :
  let m := _update_metrics now in
  outcome m l = Ok tt /\
  final m l = last (update_states now l) l /\
  states_of (events m l) = update_states now l.
Proof.
  cbv zeta. to_wp (_update_metrics now) l.
  unfold _update_metrics, update_states. wp_steps.
  repeat split; reflexivity.
Qed.

Lemma start_production_run l :
  let m := start_production in
  outcome m l = Ok tt /\
  final m l = last (start_states l) l /\
  states_of (events m l) = start_states l.
Proof.
  cbv zeta. to_wp start_production l.
  unfold start_production, start_states. wp_steps.
  destruct (MachineState_eqb (state l) IDLE); cbn [negb]; wp_steps;
    states_norm; repeat split; reflexivity.
Qed.

Lemma stop_production_run l :
  let m := stop_production in
  outcome m l = Ok tt /\
  final m l = last (stop_states l) l /\
  states_of (events m l) = stop_states l.
Proof.
  cbv zeta. to_wp stop_production l.
  unfold stop_production, stop_states. wp_steps.
  destruct (MachineState_eqb (state l) RUNNING); cbn [negb]; wp_steps;
    states_norm; repeat split; reflexivity.
Qed.

Lemma stop_if_run b l :
  let m := stop_if b in
  outcome m l = Ok tt /\
  final m l = last (if b then stop_states l else []) l /\
  states_of (events m l) = (if b then stop_states l else []).
Proof.
  destruct b; [exact (stop_production_run l)|].
  repeat split; reflexivity.
Qed.

Lemma last_cycle_states_frame r u l :
  let l1 := last (cycle_states r u l) l in
  config l1 = config l /\ start_time l1 = start_time l /\
  _running l1 = _running l /\ state l1 = state l /\
  observers l1 = observers l /\ metrics_history l1 = metrics_history l.
Proof.
  unfold cycle_states, cycle_faults.
  destruct (cycle_errs r l); [destruct (error_count l + 1 >? 5)|];
    cbn; auto 10.
Qed.

Lemma iteration_run t l :
  let m := loop_iteration t in
  outcome m l = Ok (cycle_faults (err_draw t) l) /\
  final m l = last (iteration_states t l) l /\
  states_of (events m l) = iteration_states t l.
Proof.
  cbv zeta. to_wp (loop_iteration t) l.
  unfold loop_iteration, loop_body, iteration_states. wp_step. wp_step.
  destruct (cycle_run (err_draw t) (rate_draw t) l) as (Hout & Hfin & Hst).
  destruct (last_cycle_states_frame (err_draw t) (rate_draw t) l)
    as (Hcfg & Hstart & _).
  unfold wp at 1. rewrite Hout, Hfin.
  set (c := cycle_states (err_draw t) (rate_draw t) l) in *.
  set (l1 := last c l) in *.
  destruct (cycle_faults (err_draw t) l).
  - unfold loop_handler. wp_steps. states_norm. rewrite Hst.
    rewrite last_app_default. repeat split; reflexivity.
  - wp_steps. cbn [uptime set_uptime config]. rewrite Hstart, Hcfg.
    fold (maintenance_due t l).
    set (l2 := set_uptime _ l1).
    destruct (maintenance_due t l).
    + destruct (maintenance_run l2) as (Hmo & Hmf & Hms).
      unfold wp at 1. rewrite Hmo, Hmf. wp_step.
      destruct (update_metrics_run (now_metrics t) (last (maintenance_states l2) l2))
        as (Huo & Huf & Hus).
      unfold wp at 1. rewrite Huo, Huf. wp_steps. states_norm.
      rewrite Hst, Hms, Hus. split; [reflexivity|]. split; [|reflexivity].
      rewrite last_app_default, last_cons_default, last_app_default.
      reflexivity.
    + wp_steps.
      destruct (update_metrics_run (now_metrics t) l2) as (Huo & Huf & Hus).
      unfold wp at 1. rewrite Huo, Huf. wp_steps. states_norm.
      rewrite Hst, Hus. split; [reflexivity|]. split; [|reflexivity].
      rewrite last_app_default, last_cons_default. reflexivity.
Qed.

(** ** Unfolding the worker loop *)

Lemma run_production_stopped ticks l :
  _running l = false ->
  outcome (_run_production ticks) l = Ok Exited /\
  final (_run_production ticks) l = l /\
  states_of (events (_run_production ticks) l) = [].
Proof.
  intro Hrun. to_wp (_run_production ticks) l.
  destruct ticks; cbn [_run_production]; wp_steps; rewrite Hrun; cbn [negb];
    wp_steps; auto.
Qed.

Lemma run_production_nil l :
  _running l = true ->
  outcome (_run_production []) l = Ok Pending /\
  final (_run_production []) l = l /\
  states_of (events (_run_production []) l) = [].
Proof.
  intro Hrun. to_wp (_run_production []) l.
  cbn [_run_production]; wp_steps; rewrite Hrun; cbn [negb]; wp_steps; auto.
Qed.

Lemma run_production_cons t rest l :
  _running l = true ->
  let run := _run_production (t :: rest) in
  let it := iteration_states t l in
  if cycle_faults (err_draw t) l then
    outcome run l = Ok Exited /\
    final run l = last it l /\
    states_of (events run l) = it
  else
    let s := if stop_requested t then stop_states (last it l) else [] in
    let l2 := last s (last it l) in
    outcome run l = outcome (_run_production rest) l2 /\
    final run l = final (_run_production rest) l2 /\
    states_of (events run l)
    = it ++ s ++ states_of (events (_run_production rest) l2).
Proof.
  intros Hrun run it. subst run.
  destruct (iteration_run t l) as (Ho & Hf & Hs). fold it in Hf, Hs.
  destruct (cycle_faults (err_draw t) l); cbv zeta;
    to_wp (_run_production (t :: rest)) l; cbn [_run_production];
    wp_steps; rewrite Hrun; cbn [negb]; wp_step;
    unfold wp at 1; rewrite Ho, Hf; wp_steps.
  - states_norm. rewrite Hs. auto.
  - destruct (stop_if_run (stop_requested t) (last it l)) as (Hso & Hsf & Hss).
    unfold wp at 1. rewrite Hso, Hsf. unfold wp. states_norm.
    rewrite Hs, Hss. auto.
Qed.

(** * Properties of the line *)

(** ** The production cycle and the maintenance routine *)




(** C6: whenever [_perform_maintenance] runs, from any record whatever, it
    returns normally with [error_count = 0] and [state = RUNNING]. *)
Theorem maintenance_resets l :
  outcome _perform_maintenance l = Ok tt /\
  error_count (final _perform_maintenance l) = 0 /\
  state (final _perform_maintenance l) = RUNNING.
Proof.
  to_wp _perform_maintenance l.
  unfold _perform_maintenance. wp_steps. cbn. auto.
Qed.

(** C10: a cycle that raises the fatal fault has added one to [error_count]
    and changed nothing else; the loop iteration around it leaves
    [metrics_history] as it was. *)
Theorem fatal_cycle_frame t l e :
  let m := _simulate_production_cycle (err_draw t) (rate_draw t) in
  outcome m l = Raise e ->
  final m l = set_error_count (error_count l + 1) l /\
  error_count (final m l) = error_count l + 1 /\
  production_rate (final m l) = production_rate l /\
  total_produced (final m l) = total_produced l /\
  state (final m l) = state l /\
  metrics_history (final m l) = metrics_history l /\
  metrics_history (final (loop_iteration t) l) = metrics_history l.
Proof.
  intros m Hraise.
  pose proof (iteration_after_raise t l e Hraise) as Hit. cbv zeta in Hit.
  destruct (cycle_raise_inv _ _ _ _ Hraise) as (_ & _ & _ & Hfin).
  fold m in Hfin, Hit.
  unfold final at 7. rewrite Hit. rewrite Hfin. cbn. auto 10.
Qed.

Lemma fatal_cycle_frame_witness :
  let t := sample_tick 0 0 in
  let l := five_errors_line in
  let m := _simulate_production_cycle (err_draw t) (rate_draw t) in
  outcome m l = Raise (RuntimeError "Too many errors") /\
  error_count l = 5 /\
  error_count (final m l) = 6 /\
  metrics_history (final (loop_iteration t) l) = metrics_history l.
Proof.
  cbv zeta. split; [reflexivity|]. split; [reflexivity|].
  destruct (fatal_cycle_frame (sample_tick 0 0) five_errors_line
              (RuntimeError "Too many errors") eq_refl)
    as (_ & Hec & _ & _ & _ & _ & Hh).
  split; [exact Hec | exact Hh].
Defined.

(** ** The control calls *)

Lemma start_production_cases l :
  let m := start_production in
  outcome m l = Ok tt /\
  if MachineState_eqb (state l) IDLE then
    final m l = set_running true (set_state RUNNING l) /\
    updates_of (events m l)
    = map (fun o => (o, RUNNING, snapshot l)) (observers l)
  else
    final m l = l /\ states_of (events m l) = [] /\
    updates_of (events m l) = [].
Proof.
  cbv zeta. to_wp start_production l. unfold start_production. wp_steps.
  destruct (MachineState_eqb (state l) IDLE) eqn:Hst; cbn [negb]; wp_steps.
  - split; [reflexivity|]. split; [reflexivity|].
    cbn. unfold notify_events. cbn.
    induction (observers l) as [|o os IH]; cbn; [reflexivity|].
    f_equal. exact IH.
  - repeat split; reflexivity.
Qed.

Lemma stop_production_cases l :
  let m := stop_production in
  outcome m l = Ok tt /\
  if MachineState_eqb (state l) RUNNING then
    final m l = set_state IDLE (set_running false l) /\
    updates_of (events m l)
    = map (fun o => (o, IDLE, snapshot l)) (observers l)
  else
    final m l = l /\ states_of (events m l) = [] /\
    updates_of (events m l) = [].
Proof.
  cbv zeta. to_wp stop_production l. unfold stop_production. wp_steps.
  destruct (MachineState_eqb (state l) RUNNING) eqn:Hst; cbn [negb]; wp_steps.
  - split; [reflexivity|]. split; [reflexivity|].
    cbn. unfold notify_events. cbn.
    induction (observers l) as [|o os IH]; cbn; [reflexivity|].
    f_equal. exact IH.
  - repeat split; reflexivity.
Qed.

Lemma command_idle_or_running c l :
  idle_or_running l ->
  outcome (command c) l = Ok tt /\ idle_or_running (final (command c) l).
Proof.
  unfold idle_or_running. intros H. destruct c; cbn [command].
  - destruct (start_production_cases l) as [Hout Hc]. split; [exact Hout|].
    destruct (MachineState_eqb (state l) IDLE);
      [destruct Hc as [-> _] | destruct Hc as [-> _]]; cbn; auto.
  - destruct (stop_production_cases l) as [Hout Hc]. split; [exact Hout|].
    destruct (MachineState_eqb (state l) RUNNING);
      [destruct Hc as [-> _] | destruct Hc as [-> _]]; cbn; auto.
Qed.

Lemma commands_idle_or_running cs : forall l,
  idle_or_running l ->
  outcome (commands cs) l = Ok tt /\ idle_or_running (final (commands cs) l).
Proof.
  induction cs as [|c cs IH]; intros l Hl; [split; [reflexivity | exact Hl]|].
  to_wp (commands (c :: cs)) l. unfold commands. cbn [for_each]. wp_step.
  destruct (command_idle_or_running c l Hl) as [Hout Hfin].
  unfold wp at 1. rewrite Hout. cbv beta iota.
  fold (commands cs). wp_use (IH _ Hfin). auto.
Qed.

(** C2: after any sequence of [start_production()] / [stop_production()]
    calls on a fresh line the state is [IDLE] or [RUNNING]; from there a
    start is taken (state [RUNNING], flag set) exactly when the state is
    [IDLE], a stop (state [IDLE], flag cleared) exactly when the state is
    [RUNNING], and a rejected call writes no attribute at all. *)
Theorem start_stop_transition_table cfg now (cs : list Command) :
  let l := final (commands cs) (__init__ cfg now) in
  outcome (commands cs) (__init__ cfg now) = Ok tt /\
  (state l = IDLE \/ state l = RUNNING) /\
  (if MachineState_eqb (state l) IDLE
   then final start_production l = set_running true (set_state RUNNING l)
   else final start_production l = l /\
        states_of (events start_production l) = []) /\
  (if MachineState_eqb (state l) RUNNING
   then final stop_production l = set_state IDLE (set_running false l)
   else final stop_production l = l /\
        states_of (events stop_production l) = []).
Proof.
  cbv zeta.
  destruct (commands_idle_or_running cs (__init__ cfg now)) as [Hout Hfin];
    [left; reflexivity|].
  split; [exact Hout|]. split; [exact Hfin|].
  set (l := final (commands cs) (__init__ cfg now)).
  destruct (start_production_cases l) as [_ Hstart].
  destruct (stop_production_cases l) as [_ Hstop].
  split.
  - destruct (MachineState_eqb (state l) IDLE); tauto.
  - destruct (MachineState_eqb (state l) RUNNING); tauto.
Qed.



(** ** Bounds on [error_count] *)





(** ** [total_produced] never goes down *)

Lemma path_app R l a l1 b l2 :
  path R l a l1 -> path R l1 b l2 -> path R l (a ++ b) l2.
Proof.
  induction 1 as [|l s ss l1 Hstep Hrest IH]; intro Hb; [exact Hb|].
  cbn [app]. apply path_cons; [exact Hstep | exact (IH Hb)].
Qed.

Lemma path_mono (R R' : ProductionLine -> ProductionLine -> Prop) l ss l' :
  (forall a b, R a b -> R' a b) -> path R l ss l' -> path R' l ss l'.
Proof.
  intro Himp. induction 1; [apply path_nil | apply path_cons; auto].
Qed.

Lemma path_produced_step l ss l' :
  path produced_step l ss l' -> produced_step l l'.
Proof.
  unfold produced_step.
  induction 1 as [|l s ss l' [Hc Hle] _ [IHc IHle]]; [split; [reflexivity | lia]|].
  split; [congruence | lia].
Qed.

Ltac path_explicit :=
  cbn [last app];
  repeat (first [apply path_nil | apply path_cons]);
  unfold produced_step; cbn; try (split; [reflexivity | lia]).

Lemma cycle_states_path r u l :
  (0 <= max_speed (config l))%Q -> valid_draw u ->
  path produced_step l (cycle_states r u l) (last (cycle_states r u l) l).
Proof.
  intros Hms [Hu _].
  pose proof (int_nonneg _ (rate_nonneg u _ Hu Hms)) as Hint.
  change (0 <= int (cycle_rate u l / 60)%Q) in Hint.
  unfold cycle_states, cycle_faults.
  destruct (cycle_errs r l); cbn [andb];
    [destruct (error_count l + 1 >? 5)|]; path_explicit.
Qed.

Lemma maintenance_states_path l :
  path produced_step l (maintenance_states l) (last (maintenance_states l) l).
Proof. unfold maintenance_states. path_explicit. Qed.

Lemma update_states_path now l :
  path produced_step l (update_states now l) (last (update_states now l) l).
Proof. unfold update_states. path_explicit. Qed.

Lemma start_states_path l :
  path produced_step l (start_states l) (last (start_states l) l).
Proof.
  unfold start_states. destruct (MachineState_eqb (state l) IDLE); path_explicit.
Qed.

Lemma stop_states_path (b : bool) l :
  let s := if b then stop_states l else [] in
  path produced_step l s (last s l).
Proof.
  unfold stop_states.
  destruct b; [destruct (MachineState_eqb (state l) RUNNING)|]; path_explicit.
Qed.

Lemma iteration_states_path t l :
  (0 <= max_speed (config l))%Q -> valid_draw (rate_draw t) ->
  path produced_step l (iteration_states t l) (last (iteration_states t l) l).
Proof.
  intros Hms Hu.
  pose proof (cycle_states_path (err_draw t) (rate_draw t) l Hms Hu) as Hc.
  unfold iteration_states.
  set (c := cycle_states (err_draw t) (rate_draw t) l) in *.
  set (l1 := last c l) in *.
  destruct (cycle_faults (err_draw t) l).
  - rewrite last_app_default. eapply path_app; [exact Hc|]. path_explicit.
  - rewrite !last_app_default.
    eapply path_app; [exact Hc|].
    eapply path_app; [path_explicit|]. cbn [last].
    eapply path_app; [|apply update_states_path].
    destruct (maintenance_due t l);
      [apply maintenance_states_path | apply path_nil].
Qed.

Lemma run_path ticks : forall l,
  (0 <= max_speed (config l))%Q ->
  Forall (fun t => valid_draw (rate_draw t)) ticks ->
  let run := _run_production ticks in
  path produced_step l (states_of (events run l)) (final run l).
Proof.
  induction ticks as [|t rest IH]; intros l Hms Hvalid; cbv zeta;
    (destruct (_running l) eqn:Hrun;
     [|match goal with
       | |- context [_run_production ?ts] =>
           destruct (run_production_stopped ts l Hrun) as (_ & -> & ->);
           apply path_nil
       end]).
  - destruct (run_production_nil l Hrun) as (_ & -> & ->). apply path_nil.
  - pose proof (run_production_cons t rest l Hrun) as Hcons.
    inversion Hvalid as [|? ? Hu Hrest]; subst.
    pose proof (iteration_states_path t l Hms Hu) as Hit.
    cbv zeta in Hcons.
    destruct (cycle_faults (err_draw t) l).
    + destruct Hcons as (_ & -> & ->). exact Hit.
    + destruct Hcons as (_ & -> & ->).
      pose proof (stop_states_path (stop_requested t)
                    (last (iteration_states t l) l)) as Hs.
      cbv zeta in Hs.
      eapply path_app; [exact Hit|].
      eapply path_app; [exact Hs|].
      apply IH; [|exact Hrest].
      destruct (path_produced_step _ _ _ (path_app _ _ _ _ _ _ Hit Hs))
        as [-> _].
      exact Hms.
Qed.

Lemma perform_path op l :
  (0 <= max_speed (config l))%Q -> op_valid op ->
  let m := try_except (perform op) (fun _ => ret tt) in
  outcome m l = Ok tt /\
  path produced_step l (states_of (events m l)) (final m l).
Proof.
  intros Hms Hvalid. cbv zeta.
  to_wp (try_except (perform op) (fun _ : Exn => ret tt)) l.
  wp_step. destruct op; cbn [perform op_valid] in *.
  - unfold register_observer. wp_steps. split; [reflexivity|]. path_explicit.
  - destruct (start_production_run l) as (Ho & Hf & Hs).
    unfold wp. rewrite Ho, Hf, Hs. split; [reflexivity|].
    apply start_states_path.
  - destruct (stop_production_run l) as (Ho & Hf & Hs).
    unfold wp. rewrite Ho, Hf, Hs. split; [reflexivity|].
    apply (stop_states_path true).
  - destruct (cycle_run r u l) as (Ho & Hf & Hs).
    unfold wp at 1. rewrite Ho, Hf, Hs.
    destruct (cycle_faults r l); wp_steps; rewrite ?app_nil_r, ?Hs;
      (split; [reflexivity|]); apply cycle_states_path; assumption.
  - destruct (maintenance_run l) as (Ho & Hf & Hs).
    unfold wp. rewrite Ho, Hf, Hs. split; [reflexivity|].
    apply maintenance_states_path.
  - destruct (update_metrics_run now l) as (Ho & Hf & Hs).
    unfold wp. rewrite Ho, Hf, Hs. split; [reflexivity|].
    apply update_states_path.
  - wp_step. rewrite states_of_notify. split; [reflexivity | apply path_nil].
  - wp_step. pose proof (run_path ticks l Hms Hvalid) as Hp. cbv zeta in Hp.
    unfold wp at 1.
    destruct (outcome (_run_production ticks) l); wp_steps;
      rewrite ?app_nil_r; (split; [reflexivity | exact Hp]).
Qed.

Lemma perform_all_path ops : forall l,
  (0 <= max_speed (config l))%Q -> Forall op_valid ops ->
  path produced_step l (states_of (events (perform_all ops) l))
    (final (perform_all ops) l).
Proof.
  induction ops as [|op rest IH]; intros l Hms Hvalid; [apply path_nil|].
  inversion Hvalid as [|? ? Hop Hrest]; subst.
  destruct (perform_path op l Hms Hop) as [Ho Hp]. cbv zeta in Ho, Hp.
  to_wp (perform_all (op :: rest)) l. cbn [perform_all]. wp_step.
  unfold wp at 1. rewrite Ho.
  assert (Hms' : (0 <= max_speed (config
            (final (try_except (perform op) (fun _ : Exn => ret tt)) l)))%Q).
  { destruct (path_produced_step _ _ _ Hp) as [-> _]. exact Hms. }
  wp_use (IH _ Hms' Hrest). intros _ l' evs Hrest_path.
  rewrite states_of_app. eapply path_app; [exact Hp | exact Hrest_path].
Qed.

(** C7: over any sequence of operations on a line (control calls, cycles,
    maintenance, metrics updates, notifications, whole worker runs) whose
    rate draws are values of [random.random()], with a non-negative
    [max_speed] as [_load_config] sets it, [total_produced] never goes down
    from one written record to the next, and ends no lower than it
    started. *)
Theorem total_produced_monotone ops l :
  (0 <= max_speed (config l))%Q ->
  Forall op_valid ops ->
  path produced_le l (states_of (events (perform_all ops) l))
    (final (perform_all ops) l) /\
  total_produced l <= total_produced (final (perform_all ops) l).
Proof.
  intros Hms Hvalid. pose proof (perform_all_path ops l Hms Hvalid) as Hp.
  split.
  - eapply path_mono; [|exact Hp]. unfold produced_step, produced_le. tauto.
  - exact (proj2 (path_produced_step _ _ _ Hp)).
Qed.

Lemma total_produced_monotone_witness :
  let ops := [OpStart; OpWorker [sample_tick 0 0; sample_tick (1 # 2) (1 # 2)];
              OpStop; OpMaintenance] in
  let l := __init__ _load_config 0 in
  (0 <= max_speed (config l))%Q /\
  total_produced l <= total_produced (final (perform_all ops) l).
Proof.
  cbv zeta. split; [discriminate|].
  apply (total_produced_monotone
           [OpStart; OpWorker [sample_tick 0 0; sample_tick (1 # 2) (1 # 2)];
            OpStop; OpMaintenance]
           (__init__ _load_config 0)).
  - discriminate.
  - repeat constructor; discriminate.
Defined.

(** ** Runs of forced errors and of error-free cycles *)

Lemma has_entries_update now l n :
  has_entries n l -> has_entries (S n) (last (update_states now l) l).
Proof.
  unfold has_entries, update_states. cbn.
  rewrite !length_app. cbn. lia.
Qed.

(** An iteration whose cycle does not fault adds one history entry and
    keeps what the loop depends on. *)
Lemma iteration_no_fault t l n :
  cycle_faults (err_draw t) l = false ->
  has_entries n l ->
  let l' := last (iteration_states t l) l in
  has_entries (S n) l' /\
  config l' = config l /\ start_time l' = start_time l /\
  _running l' = _running l /\
  error_count l'
  = (if maintenance_due t l then 0
     else if cycle_errs (err_draw t) l then error_count l + 1
     else error_count l) /\
  total_produced l'
  = total_produced l + int (cycle_rate (rate_draw t) l / 60)%Q.
Proof.
  intros Hnf Hn. cbv zeta. unfold iteration_states. rewrite Hnf.
  rewrite !last_app_default. cbn [last].
  set (l3 := last (if maintenance_due t l then _ else _) _).
  assert (H3 : has_entries n l3 /\ config l3 = config l /\
               start_time l3 = start_time l /\ _running l3 = _running l /\
               error_count l3
               = (if maintenance_due t l then 0
                  else if cycle_errs (err_draw t) l then error_count l + 1
                  else error_count l) /\
               total_produced l3
               = total_produced l + int (cycle_rate (rate_draw t) l / 60)%Q).
  { subst l3. unfold cycle_faults in Hnf. unfold cycle_states, cycle_faults.
    unfold has_entries in *.
    destruct (cycle_errs (err_draw t) l); cbn [andb] in *;
      [rewrite Hnf|]; destruct (maintenance_due t l); cbn; auto 10. }
  destruct H3 as (He & Hc & Hs & Hr & Hec & Htp).
  split; [apply has_entries_update; exact He|].
  unfold update_states. cbn. auto 10.
Qed.

Lemma iteration_fault t l n :
  cycle_faults (err_draw t) l = true ->
  has_entries n l ->
  let l' := last (iteration_states t l) l in
  has_entries n l' /\ state l' = ERROR /\
  error_count l' = error_count l + 1.
Proof.
  intros Hf Hn. cbv zeta. unfold iteration_states. rewrite Hf.
  rewrite last_app_default. cbn [last].
  unfold cycle_states. rewrite Hf. unfold cycle_faults in Hf.
  apply andb_prop in Hf. destruct Hf as [-> _]. cbn.
  repeat split; try reflexivity; apply Hn.
Qed.

Lemma run_forced_errors ticks : forall l n,
  _running l = true ->
  0 <= error_count l <= 5 ->
  has_entries n l ->
  Forall (forced_error_tick (config l) (start_time l)) ticks ->
  let run := _run_production ticks in
  let k := Z.of_nat (List.length ticks) in
  if error_count l + k <=? 5 then
    outcome run l = Ok Pending /\
    error_count (final run l) = error_count l + k /\
    has_entries (n + List.length ticks) (final run l)
  else
    outcome run l = Ok Exited /\
    state (final run l) = ERROR /\
    error_count (final run l) = 6 /\
    has_entries (n + Z.to_nat (5 - error_count l)) (final run l).
Proof.
  induction ticks as [|t rest IH]; intros l n Hrun Hec Hn Hforced; cbv zeta.
  - destruct (run_production_nil l Hrun) as (-> & -> & _).
    cbn [List.length Z.of_nat]. rewrite Z.add_0_r, Nat.add_0_r.
    destruct (Z.leb_spec (error_count l) 5); [auto | lia].
  - inversion Hforced as [|? ? (Herr & Hdue & Hstop) Hrest]; subst.
    pose proof (run_production_cons t rest l Hrun) as Hcons.
    cbv zeta in Hcons. rewrite Hstop in Hcons. cbn [last] in Hcons.
    fold (cycle_errs (err_draw t) l) in Herr.
    fold (maintenance_due t l) in Hdue.
    destruct (cycle_faults (err_draw t) l) eqn:Hfault.
    + destruct Hcons as (-> & -> & _).
      destruct (iteration_fault t l n Hfault Hn) as (He & Hst & Hec').
      unfold cycle_faults in Hfault. rewrite Herr in Hfault. cbn in Hfault.
      apply Z.gtb_lt in Hfault.
      destruct (Z.leb_spec (error_count l + Z.of_nat (List.length (t :: rest))) 5);
        [cbn [List.length] in *; lia|].
      replace (5 - error_count l) with 0 by lia. cbn [Z.to_nat].
      rewrite Nat.add_0_r.
      refine (conj eq_refl (conj Hst (conj _ He))). lia.
    + destruct Hcons as (-> & -> & _).
      destruct (iteration_no_fault t l n Hfault Hn)
        as (He & Hc & Hs & Hr & Hec' & _).
      rewrite Hdue, Herr in Hec'.
      unfold cycle_faults in Hfault. rewrite Herr in Hfault. cbn in Hfault.
      assert (Hle : error_count l + 1 <= 5)
        by (destruct (Z.gtb_spec (error_count l + 1) 5); [discriminate | lia]).
      set (l' := last (iteration_states t l) l) in *.
      assert (Hrest' : Forall (forced_error_tick (config l') (start_time l')) rest)
        by (rewrite Hc, Hs; exact Hrest).
      assert (Hrun' : _running l' = true) by congruence.
      assert (Hec'' : 0 <= error_count l' <= 5) by lia.
      pose proof (IH l' (S n) Hrun' Hec'' He Hrest') as Hind. cbv zeta in Hind.
      rewrite Hec' in Hind. cbn [List.length].
      rewrite Nat2Z.inj_succ.
      replace (error_count l + 1 + Z.of_nat (List.length rest))
        with (error_count l + Z.succ (Z.of_nat (List.length rest))) in Hind by lia.
      destruct (error_count l + Z.succ (Z.of_nat (List.length rest)) <=? 5).
      * destruct Hind as (Ho & Hf & Hh). refine (conj Ho (conj Hf _)).
        replace (n + S (List.length rest))%nat
          with (S n + List.length rest)%nat by lia.
        exact Hh.
      * destruct Hind as (Ho & Hst & Hf & Hh).
        refine (conj Ho (conj Hst (conj Hf _))).
        replace (n + Z.to_nat (5 - error_count l))%nat
          with (S n + Z.to_nat (5 - (error_count l + 1)))%nat by lia.
        exact Hh.
Qed.

Lemma Qle_bool_false x y : Qle_bool x y = false <-> (y < x)%Q.
Proof.
  rewrite <- Qltb_true. unfold Qltb. rewrite negb_true_iff. reflexivity.
Qed.

Lemma started_fresh cfg now :
  final start_production (__init__ cfg now)
  = set_running true (set_state RUNNING (__init__ cfg now)) /\
  outcome start_production (__init__ cfg now) = Ok tt.
Proof.
  destruct (start_production_run (__init__ cfg now)) as (Ho & Hf & _).
  split; [rewrite Hf; reflexivity | exact Ho].
Qed.

(** C4 (as stated, refuted): with [error_threshold = 1.0] and six ticks the
    worker is left with the line in [ERROR], but the history then holds five
    entries, not six. *)
Lemma forced_errors_counterexample :
  let l0 := __init__ forced_error_config 0 in
  let run := run_line (repeat (sample_tick 0 0) 6) in
  outcome run l0 = Ok Exited /\
  state (final run l0) = ERROR /\
  h_error_count (metrics_history (final run l0)) = [1; 2; 3; 4; 5] /\
  has_entries 5 (final run l0) /\
  ~ has_entries 6 (final run l0).
Proof.
  vm_compute. repeat split; try reflexivity.
  intros (H & _). discriminate H.
Qed.

(** C4 (amended): with [error_threshold = 1.0], on a fresh line that is
    started and runs six cycles (no maintenance falling due and no stop in
    between), the sixth cycle raises the fatal fault: the worker loop is
    left, the line is in [ERROR] with [error_count = 6], and
    [metrics_history] holds exactly five entries, the faulting cycle
    recording none. *)
Theorem forced_errors_halt cfg now ticks :
  (error_threshold cfg == 1)%Q ->
  List.length ticks = 6%nat ->
  Forall (fun t => valid_draw (err_draw t) /\
                   (now_uptime t - now < maintenance_interval cfg)%Q /\
                   stop_requested t = false) ticks ->
  let l0 := __init__ cfg now in
  let run := run_line ticks in
  outcome run l0 = Ok Exited /\
  state (final run l0) = ERROR /\
  error_count (final run l0) = 6 /\
  has_entries 5 (final run l0).
Proof.
  intros Hthr Hlen Hticks. cbv zeta.
  destruct (started_fresh cfg now) as [Hf Ho].
  to_wp (run_line ticks) (__init__ cfg now). unfold run_line. wp_step.
  unfold wp at 1. rewrite Ho, Hf.
  set (l1 := set_running true (set_state RUNNING (__init__ cfg now))).
  assert (Hforced : Forall (forced_error_tick (config l1) (start_time l1)) ticks).
  { eapply Forall_impl; [|exact Hticks].
    intros t ([_ Hlt] & Hup & Hstop). cbn. unfold forced_error_tick.
    split; [apply Qltb_true; rewrite Hthr; exact Hlt|].
    split; [apply Qle_bool_false; exact Hup | exact Hstop]. }
  assert (H0 : has_entries 0 l1) by (repeat split).
  assert (Hec : 0 <= error_count l1 <= 5) by (cbn; lia).
  pose proof (run_forced_errors ticks l1 0%nat eq_refl Hec H0 Hforced) as Hrun.
  cbv zeta in Hrun. rewrite Hlen in Hrun. cbn in Hrun.
  wp_use Hrun. intros r l' evs H. exact H.
Qed.

Lemma forced_errors_halt_witness :
  let l0 := __init__ forced_error_config 0 in
  let run := run_line (repeat (sample_tick 0 0) 6) in
  (error_threshold forced_error_config == 1)%Q /\
  outcome run l0 = Ok Exited /\
  state (final run l0) = ERROR /\
  error_count (final run l0) = 6 /\
  has_entries 5 (final run l0).
Proof.
  cbv zeta. split; [reflexivity|].
  apply (forced_errors_halt forced_error_config 0 (repeat (sample_tick 0 0) 6)).
  - reflexivity.
  - reflexivity.
  - repeat constructor; cbn; discriminate.
Defined.

Lemma iteration_error_free t l n :
  error_free_tick (config l) t ->
  (max_speed (config l) == 100)%Q ->
  error_count l = 0 ->
  has_entries n l ->
  let l' := last (iteration_states t l) l in
  cycle_faults (err_draw t) l = false /\
  has_entries (S n) l' /\
  config l' = config l /\ _running l' = _running l /\
  error_count l' = 0 /\
  total_produced l' = total_produced l + 1.
Proof.
  intros (Herr & Hu & _) Hms Hec Hn. cbv zeta.
  fold (cycle_errs (err_draw t) l) in Herr.
  assert (Hnf : cycle_faults (err_draw t) l = false)
    by (unfold cycle_faults; rewrite Herr; reflexivity).
  destruct (iteration_no_fault t l n Hnf Hn)
    as (He & Hc & _ & Hr & Hec' & Htp).
  rewrite Herr, Hec in Hec'.
  unfold cycle_rate in Htp. rewrite (rate_default _ _ Hu Hms) in Htp.
  repeat split; try assumption; try apply He.
  destruct (maintenance_due t l); exact Hec'.
Qed.

Lemma run_error_free ticks : forall l n,
  _running l = true ->
  (max_speed (config l) == 100)%Q ->
  error_count l = 0 ->
  has_entries n l ->
  Forall (error_free_tick (config l)) ticks ->
  let run := _run_production ticks in
  outcome run l = Ok Pending /\
  total_produced (final run l)
  = total_produced l + Z.of_nat (List.length ticks) /\
  error_count (final run l) = 0 /\
  has_entries (n + List.length ticks) (final run l).
Proof.
  induction ticks as [|t rest IH]; intros l n Hrun Hms Hec Hn Hticks; cbv zeta.
  - destruct (run_production_nil l Hrun) as (-> & -> & _).
    cbn [List.length Z.of_nat]. rewrite Z.add_0_r, Nat.add_0_r. auto.
  - inversion Hticks as [|? ? Ht Hrest]; subst.
    pose proof (run_production_cons t rest l Hrun) as Hcons.
    destruct (iteration_error_free t l n Ht Hms Hec Hn)
      as (Hnf & He & Hc & Hr & Hec' & Htp).
    destruct Ht as (_ & _ & Hstop).
    cbv zeta in Hcons. rewrite Hnf, Hstop in Hcons. cbn [last] in Hcons.
    destruct Hcons as (-> & -> & _).
    set (l' := last (iteration_states t l) l) in *.
    assert (Hrun' : _running l' = true) by congruence.
    assert (Hms' : (max_speed (config l') == 100)%Q) by (rewrite Hc; exact Hms).
    assert (Hrest' : Forall (error_free_tick (config l')) rest)
      by (rewrite Hc; exact Hrest).
    destruct (IH l' (S n) Hrun' Hms' Hec' He Hrest') as (Ho & Htp' & Hec'' & Hh).
    refine (conj Ho (conj _ (conj Hec'' _))).
    + rewrite Htp', Htp. cbn [List.length]. lia.
    + cbn [List.length].
      replace (n + S (List.length rest))%nat
        with (S n + List.length rest)%nat by lia.
      exact Hh.
Qed.

(** C5 (as stated, refuted): ten error-free cycles at [max_speed = 100]
    leave [total_produced] at 10, outside the range from 13 to 16. *)
Lemma error_free_total_counterexample :
  let l0 := __init__ _load_config 0 in
  let run := run_line (repeat (sample_tick (1 # 2) (1 # 2)) 10) in
  outcome run l0 = Ok Pending /\
  has_entries 10 (final run l0) /\
  error_count (final run l0) = 0 /\
  total_produced (final run l0) = 10 /\
  ~ (13 <= total_produced (final run l0) <= 16).
Proof.
  vm_compute. repeat split; try reflexivity.
  intros [H _]. apply H. reflexivity.
Qed.

(** C5 (amended): on a fresh line with [max_speed = 100] that is started and
    completes ten cycles in none of which the error trigger fires, every
    cycle adds [int(rate / 60) = 1] for its rate in [80, 100], so
    [total_produced] equals 10, and [error_count] equals 0. *)
Theorem error_free_total cfg now ticks :
  (max_speed cfg == 100)%Q ->
  List.length ticks = 10%nat ->
  Forall (error_free_tick cfg) ticks ->
  let l0 := __init__ cfg now in
  let run := run_line ticks in
  outcome run l0 = Ok Pending /\
  total_produced (final run l0) = 10 /\
  error_count (final run l0) = 0 /\
  has_entries 10 (final run l0).
Proof.
  intros Hms Hlen Hticks. cbv zeta.
  destruct (started_fresh cfg now) as [Hf Ho].
  to_wp (run_line ticks) (__init__ cfg now). unfold run_line. wp_step.
  unfold wp at 1. rewrite Ho, Hf.
  set (l1 := set_running true (set_state RUNNING (__init__ cfg now))).
  assert (H0 : has_entries 0 l1) by (repeat split).
  pose proof (run_error_free ticks l1 0%nat eq_refl Hms eq_refl H0 Hticks) as Hrun.
  cbv zeta in Hrun. rewrite Hlen in Hrun. cbn in Hrun.
  wp_use Hrun. intros r l' evs H. exact H.
Qed.

Lemma error_free_total_witness :
  let l0 := __init__ _load_config 0 in
  let run := run_line (repeat (sample_tick (1 # 2) (1 # 2)) 10) in
  (max_speed _load_config == 100)%Q /\
  outcome run l0 = Ok Pending /\
  total_produced (final run l0) = 10 /\
  error_count (final run l0) = 0 /\
  has_entries 10 (final run l0).
Proof.
  cbv zeta. split; [reflexivity|].
  apply (error_free_total _load_config 0 (repeat (sample_tick (1 # 2) (1 # 2)) 10)).
  - reflexivity.
  - reflexivity.
  - repeat constructor; cbn; discriminate.
Defined.

(** ** The lock *)

Lemma lock_discipline_unguarded evs : forall held,
  lock_discipline held evs = true <-> unguarded held evs = [].
Proof.
  induction evs as [|ev evs IH]; intro held; [split; reflexivity|].
  destruct ev; cbn [lock_discipline unguarded]; try apply IH.
  - destruct (held || negb (protected f)); cbn [andb app];
      [apply IH | split; discriminate].
  - destruct (held || negb (protected f)); cbn [andb app];
      [apply IH | split; discriminate].
Qed.

Lemma unguarded_notify held l rest :
  unguarded held (notify_events l ++ rest)
  = (if held then []
     else [Rd f_production_rate; Rd f_error_count; Rd f_total_produced]
          ++ map (fun _ => Rd f_state) (observers l))
    ++ unguarded held rest.
Proof.
  unfold notify_events.
  destruct held; cbn; [|do 3 f_equal];
    induction (observers l) as [|o os IH]; cbn; congruence.
Qed.

(** The cycle and the maintenance routine keep to the lock. *)
Lemma cycle_guarded r u l :
  unguarded false (events (_simulate_production_cycle r u) l) = [].
Proof.
  to_wp (_simulate_production_cycle r u) l.
  unfold _simulate_production_cycle. wp_steps.
  destruct (Qltb r (error_threshold (config l))); wp_steps;
    [destruct (_ >? 5); wp_steps|]; reflexivity.
Qed.

Lemma maintenance_guarded l :
  unguarded false (events _perform_maintenance l) = [].
Proof.
  to_wp _perform_maintenance l. unfold _perform_maintenance. wp_steps.
  rewrite <- !app_assoc. cbn [app unguarded orb].
  rewrite unguarded_notify. cbn [app unguarded orb].
  rewrite unguarded_notify. reflexivity.
Qed.

(** [_update_metrics] takes no lock: each of its accesses to the history
    and to the counters is unguarded. *)
Lemma update_metrics_unguarded now l :
  unguarded false (events (_update_metrics now) l)
  = [Rd f_metrics_history; Wr f_metrics_history;
     Rd f_metrics_history; Rd f_production_rate; Wr f_metrics_history;
     Rd f_metrics_history; Rd f_error_count; Wr f_metrics_history;
     Rd f_metrics_history; Rd f_total_produced; Wr f_metrics_history].
Proof. reflexivity. Qed.

(** The fault handler writes [state] and builds the notification outside
    the lock. *)
Lemma handler_unguarded e l :
  unguarded false (events (loop_handler e) l)
  = [Wr f_state; Rd f_production_rate; Rd f_error_count;
     Rd f_total_produced] ++ map (fun _ => Rd f_state) (observers l).
Proof.
  to_wp (loop_handler e) l. unfold loop_handler. wp_steps.
  cbn [app unguarded orb negb protected]. rewrite unguarded_notify.
  cbn. rewrite app_nil_r. reflexivity.
Qed.

(** C8 (the code departs from it): a fresh line with the default
    configuration is started and the worker runs one error-free iteration.
    The lock discipline fails: the notification after the start and the one
    after the cycle read the counters, and [_update_metrics] reads them and
    writes the history, all with the lock not held. *)
Theorem lock_discipline_violated :
  let l0 := __init__ _load_config 0 in
  let evs := events (run_line [sample_tick (1 # 2) (1 # 2)]) l0 in
  lock_discipline false evs = false /\
  unguarded false evs
  = [Rd f_production_rate; Rd f_error_count; Rd f_total_produced;
     Rd f_metrics_history; Wr f_metrics_history;
     Rd f_metrics_history; Rd f_production_rate; Wr f_metrics_history;
     Rd f_metrics_history; Rd f_error_count; Wr f_metrics_history;
     Rd f_metrics_history; Rd f_total_produced; Wr f_metrics_history;
     Rd f_production_rate; Rd f_error_count; Rd f_total_produced].
Proof. vm_compute. split; reflexivity. Qed.

(** * Further properties *)

(** ** The effect list of the worker loop *)

Lemma iteration_events t l :
  let cycle := _simulate_production_cycle (err_draw t) (rate_draw t) in
  let l1 := final cycle l in
  let l2 := set_uptime (now_uptime t - start_time l)%Q l1 in
  let l3 := if maintenance_due t l then final _perform_maintenance l2 else l2 in
  let l4 := final (_update_metrics (now_metrics t)) l3 in
  events (loop_iteration t) l
  = events cycle l
    ++ (if cycle_faults (err_draw t) l then
          [Log LOG_ERROR "Production error: Too many errors";
           Write f_state (set_state ERROR l1)]
          ++ notify_events (set_state ERROR l1)
        else
          [Read f_start_time; Write f_uptime l2; Read f_uptime; Read f_config]
          ++ (if maintenance_due t l then events _perform_maintenance l2 else [])
          ++ events (_update_metrics (now_metrics t)) l3
          ++ notify_events l4 ++ [Sleep 1]).
Proof.
  cbv zeta. to_wp (loop_iteration t) l.
  unfold loop_iteration, loop_body. wp_step. wp_step.
  destruct (cycle_run (err_draw t) (rate_draw t) l) as (Hout & Hfin & _).
  destruct (last_cycle_states_frame (err_draw t) (rate_draw t) l)
    as (Hcfg & Hstart & _).
  rewrite <- Hfin in Hcfg, Hstart.
  unfold wp at 1. rewrite Hout.
  set (l1 := final (_simulate_production_cycle (err_draw t) (rate_draw t)) l) in *.
  destruct (cycle_faults (err_draw t) l).
  - unfold loop_handler. wp_steps. rewrite app_nil_r. reflexivity.
  - wp_steps. cbn [uptime set_uptime config]. rewrite Hstart, Hcfg.
    fold (maintenance_due t l).
    set (l2 := set_uptime _ l1).
    destruct (maintenance_due t l).
    + destruct (maintenance_run l2) as (Hmo & _).
      unfold wp at 1. rewrite Hmo. wp_step.
      destruct (update_metrics_run (now_metrics t) (final _perform_maintenance l2))
        as (Huo & _).
      unfold wp at 1. rewrite Huo. wp_steps.
      rewrite app_nil_r. reflexivity.
    + wp_steps.
      destruct (update_metrics_run (now_metrics t) l2) as (Huo & _).
      unfold wp at 1. rewrite Huo. wp_steps.
      rewrite app_nil_r. reflexivity.
Qed.

Lemma run_events_cons t rest l :
  _running l = true ->
  let l1 := final (loop_iteration t) l in
  let l2 := final (stop_if (stop_requested t)) l1 in
  events (_run_production (t :: rest)) l
  = Read f_running :: events (loop_iteration t) l
    ++ (if cycle_faults (err_draw t) l then []
        else events (stop_if (stop_requested t)) l1
             ++ events (_run_production rest) l2) /\
  final (_run_production (t :: rest)) l
  = (if cycle_faults (err_draw t) l then l1
     else final (_run_production rest) l2) /\
  outcome (_run_production (t :: rest)) l
  = (if cycle_faults (err_draw t) l then Ok Exited
     else outcome (_run_production rest) l2).
Proof.
  intros Hrun. cbv zeta.
  destruct (iteration_run t l) as (Ho & _).
  to_wp (_run_production (t :: rest)) l. cbn [_run_production].
  wp_steps. rewrite Hrun. cbn [negb]. wp_step.
  unfold wp at 1. rewrite Ho.
  destruct (cycle_faults (err_draw t) l); wp_steps.
  - rewrite app_nil_r. auto.
  - destruct (stop_if_run (stop_requested t) (final (loop_iteration t) l))
      as (Hso & _).
    unfold wp at 1. rewrite Hso. unfold wp. auto.
Qed.

Lemma run_events_idle ticks l :
  _running l = false ->
  _run_production ticks l = (Ok Exited, l, [Read f_running]).
Proof.
  intro Hrun.
  destruct ticks; cbn [_run_production]; unfold bind, read; rewrite Hrun;
    reflexivity.
Qed.

Lemma run_events_nil l :
  _running l = true ->
  _run_production [] l = (Ok Pending, l, [Read f_running]).
Proof.
  intro Hrun. cbn [_run_production]; unfold bind, read; rewrite Hrun;
    reflexivity.
Qed.

(** ** Summaries that compose

    A summary [P l evs l'] relates the record before a computation, its
    effects and the record after it.  One that holds of the pieces and is
    kept by sequencing holds of every worker run and of every sequence of
    operations. *)

Lemma try_skip_run {A} (m : M A) l :
  outcome (try_except (m ;; ret tt) (fun _ => ret tt)) l = Ok tt /\
  final (try_except (m ;; ret tt) (fun _ => ret tt)) l = final m l /\
  events (try_except (m ;; ret tt) (fun _ => ret tt)) l = events m l.
Proof.
  unfold outcome, final, events, try_except, bind, ret.
  destruct (m l) as [[[a|x] l1] e1]; cbn; rewrite ?app_nil_r; auto.
Qed.

Lemma try_unit_run (m : M unit) l :
  outcome (try_except m (fun _ => ret tt)) l = Ok tt /\
  final (try_except m (fun _ => ret tt)) l = final m l /\
  events (try_except m (fun _ => ret tt)) l = events m l.
Proof.
  unfold outcome, final, events, try_except, ret.
  destruct (m l) as [[[[]|x] l1] e1]; cbn; rewrite ?app_nil_r; auto.
Qed.

Section Summary.
Variable P : ProductionLine -> list Event -> ProductionLine -> Prop.
Variable good : Tick -> Prop.
Hypothesis P_nil : forall l, P l [] l.
Hypothesis P_app : forall l e1 l1 e2 l2,
  P l e1 l1 -> P l1 e2 l2 -> P l (e1 ++ e2) l2.
Hypothesis P_read : forall f l, P l [Read f] l.
Hypothesis P_iteration : forall t l,
  good t -> P l (events (loop_iteration t) l) (final (loop_iteration t) l).
Hypothesis P_stop : forall l,
  P l (events stop_production l) (final stop_production l).

Lemma run_summary ticks : forall l,
  Forall good ticks ->
  P l (events (_run_production ticks) l) (final (_run_production ticks) l).
Proof.
  induction ticks as [|t rest IH]; intros l Hgood;
    (destruct (_running l) eqn:Hrun;
     [|unfold events, final; rewrite run_events_idle by exact Hrun;
       apply P_read]).
  - unfold events, final. rewrite run_events_nil by exact Hrun. apply P_read.
  - inversion Hgood as [|? ? Ht Hrest]; subst.
    destruct (run_events_cons t rest l Hrun) as (-> & -> & _).
    change (Read f_running :: ?x) with ([Read f_running] ++ x).
    eapply P_app; [apply P_read|].
    destruct (cycle_faults (err_draw t) l).
    + rewrite app_nil_r. apply P_iteration, Ht.
    + eapply P_app; [apply P_iteration, Ht|].
      eapply P_app; [|apply IH, Hrest].
      destruct (stop_requested t); [apply P_stop | apply P_nil].
Qed.

Hypothesis good_all : forall t, good t.
Hypothesis P_register : forall o l,
  P l (events (register_observer o) l) (final (register_observer o) l).
Hypothesis P_start : forall l,
  P l (events start_production l) (final start_production l).
Hypothesis P_cycle : forall r u l,
  P l (events (_simulate_production_cycle r u) l)
    (final (_simulate_production_cycle r u) l).
Hypothesis P_maintenance : forall l,
  P l (events _perform_maintenance l) (final _perform_maintenance l).
Hypothesis P_update : forall now l,
  P l (events (_update_metrics now) l) (final (_update_metrics now) l).
Hypothesis P_notify : forall l, P l (notify_events l) l.

Lemma perform_summary op l :
  let m := try_except (perform op) (fun _ => ret tt) in
  outcome m l = Ok tt /\ P l (events m l) (final m l).
Proof.
  cbv zeta. destruct op; cbn [perform].
  8: { destruct (try_skip_run (_run_production ticks) l) as (-> & -> & ->).
       split; [reflexivity | apply run_summary].
       apply Forall_forall. intros t _. apply good_all. }
  all: match goal with
       | |- context [try_except ?m _] =>
           destruct (try_unit_run m l) as (-> & -> & ->)
       end; (split; [reflexivity|]); auto.
  unfold events, final. rewrite notify_observers_run. apply P_notify.
Qed.

Lemma perform_all_summary ops : forall l,
  outcome (perform_all ops) l = Ok tt /\
  P l (events (perform_all ops) l) (final (perform_all ops) l).
Proof.
  induction ops as [|op rest IH]; intro l; [split; [reflexivity | apply P_nil]|].
  destruct (perform_summary op l) as [Ho Hp]. cbv zeta in Ho, Hp.
  to_wp (perform_all (op :: rest)) l. cbn [perform_all]. wp_step.
  unfold wp at 1. rewrite Ho.
  wp_use (IH (final (try_except (perform op) (fun _ : Exn => ret tt)) l)).
  intros r l' evs [Hr Hrest]. split; [exact Hr|].
  eapply P_app; [exact Hp | exact Hrest].
Qed.
End Summary.

(** An iteration is made of the cycle, the uptime update, the maintenance
    routine when due, the metrics update, a notification and the sleep, or
    of the cycle and the fault handler. *)
Section Pieces.
Variable P : ProductionLine -> list Event -> ProductionLine -> Prop.
Hypothesis P_nil : forall l, P l [] l.
Hypothesis P_app : forall l e1 l1 e2 l2,
  P l e1 l1 -> P l1 e2 l2 -> P l (e1 ++ e2) l2.
Hypothesis P_cycle : forall r u l,
  P l (events (_simulate_production_cycle r u) l)
    (final (_simulate_production_cycle r u) l).
Hypothesis P_maintenance : forall l,
  P l (events _perform_maintenance l) (final _perform_maintenance l).
Hypothesis P_update : forall now l,
  P l (events (_update_metrics now) l) (final (_update_metrics now) l).
Hypothesis P_notify : forall l, P l (notify_events l) l.
Hypothesis P_uptime : forall v l,
  P l [Read f_start_time; Write f_uptime (set_uptime v l); Read f_uptime;
       Read f_config] (set_uptime v l).
Hypothesis P_handler : forall l,
  P l [Log LOG_ERROR "Production error: Too many errors";
       Write f_state (set_state ERROR l)] (set_state ERROR l).
Hypothesis P_sleep : forall l, P l [Sleep 1] l.

Lemma iteration_summary t l :
  P l (events (loop_iteration t) l) (final (loop_iteration t) l).
Proof.
  rewrite iteration_events.
  destruct (iteration_run t l) as (_ & Hf & _).
  destruct (cycle_run (err_draw t) (rate_draw t) l) as (_ & Hcf & _).
  assert (Hfin : final (loop_iteration t) l
    = if cycle_faults (err_draw t) l
      then set_state ERROR
             (final (_simulate_production_cycle (err_draw t) (rate_draw t)) l)
      else final (_update_metrics (now_metrics t))
             (if maintenance_due t l
              then final _perform_maintenance
                     (set_uptime (now_uptime t - start_time l)%Q
                        (final (_simulate_production_cycle (err_draw t)
                                  (rate_draw t)) l))
              else set_uptime (now_uptime t - start_time l)%Q
                     (final (_simulate_production_cycle (err_draw t)
                               (rate_draw t)) l))).
  { rewrite Hf, Hcf. unfold iteration_states.
    destruct (cycle_faults (err_draw t) l).
    - rewrite last_app_default. reflexivity.
    - rewrite !last_app_default, last_cons_default.
      destruct (maintenance_due t l).
      + destruct (maintenance_run
                    (set_uptime (now_uptime t - start_time l)%Q
                       (last (cycle_states (err_draw t) (rate_draw t) l) l)))
          as (_ & -> & _).
        destruct (update_metrics_run (now_metrics t)
                    (last (maintenance_states
                       (set_uptime (now_uptime t - start_time l)%Q
                          (last (cycle_states (err_draw t) (rate_draw t) l) l)))
                       (set_uptime (now_uptime t - start_time l)%Q
                          (last (cycle_states (err_draw t) (rate_draw t) l) l))))
          as (_ & -> & _).
        reflexivity.
      + destruct (update_metrics_run (now_metrics t)
                    (set_uptime (now_uptime t - start_time l)%Q
                       (last (cycle_states (err_draw t) (rate_draw t) l) l)))
          as (_ & -> & _).
        reflexivity. }
  rewrite Hfin. clear Hf Hcf Hfin.
  eapply P_app; [apply P_cycle|].
  destruct (cycle_faults (err_draw t) l).
  - eapply P_app; [apply P_handler | apply P_notify].
  - eapply P_app; [apply P_uptime|].
    destruct (maintenance_due t l).
    + eapply P_app; [apply P_maintenance|].
      eapply P_app; [apply P_update|].
      eapply P_app; [apply P_notify | apply P_sleep].
    + cbn [app].
      eapply P_app; [apply P_update|].
      eapply P_app; [apply P_notify | apply P_sleep].
Qed.
End Pieces.

(** ** The lock is taken free and given back *)

Lemma lock_trace_app a : forall held b,
  lock_trace held (a ++ b)
  = match lock_trace held a with
    | Some held' => lock_trace held' b
    | None => None
    end.
Proof.
  induction a as [|ev a IH]; intros held b; [reflexivity|].
  destruct ev; cbn [app lock_trace]; try apply IH;
    destruct held; try reflexivity; apply IH.
Qed.

Lemma lock_trace_notify held l : lock_trace held (notify_events l) = Some held.
Proof.
  unfold notify_events. cbn.
  induction (observers l) as [|o os IH]; [reflexivity | exact IH].
Qed.

Ltac lock_norm :=
  repeat (rewrite ?lock_trace_app, ?lock_trace_notify; cbn [app lock_trace]).

Lemma lock_trace_cycle r u l :
  lock_trace false (events (_simulate_production_cycle r u) l) = Some false.
Proof.
  to_wp (_simulate_production_cycle r u) l.
  unfold _simulate_production_cycle. wp_steps.
  destruct (Qltb r (error_threshold (config l))); wp_steps;
    [destruct (_ >? 5); wp_steps|]; reflexivity.
Qed.

Lemma lock_trace_maintenance l :
  lock_trace false (events _perform_maintenance l) = Some false.
Proof.
  to_wp _perform_maintenance l. unfold _perform_maintenance. wp_steps.
  lock_norm. reflexivity.
Qed.

Lemma lock_trace_start l :
  lock_trace false (events start_production l) = Some false.
Proof.
  to_wp start_production l. unfold start_production. wp_steps.
  destruct (MachineState_eqb (state l) IDLE); cbn [negb]; wp_steps;
    lock_norm; reflexivity.
Qed.

Lemma lock_trace_stop l :
  lock_trace false (events stop_production l) = Some false.
Proof.
  to_wp stop_production l. unfold stop_production. wp_steps.
  destruct (MachineState_eqb (state l) RUNNING); cbn [negb]; wp_steps;
    lock_norm; reflexivity.
Qed.

(** X1: over any sequence of operations on a line (control calls, the
    private methods, whole worker runs with their faults and stops) every
    [Acquire] finds the lock free and every [Release] finds it held, and the
    lock is free at the end: a method never asks for the lock while one that
    holds it is still running, and a raised fault does not leave it taken. *)
Theorem lock_taken_free_and_released ops l :
  lock_trace false (events (perform_all ops) l) = Some false.
Proof.
  apply (perform_all_summary
           (fun _ evs _ => lock_trace false evs = Some false)
           (fun _ => True)); try reflexivity; auto.
  - intros _ e1 _ e2 _ H1 H2. rewrite lock_trace_app, H1. exact H2.
  - intros t l0 _.
    apply (iteration_summary
             (fun _ evs _ => lock_trace false evs = Some false));
      try reflexivity.
    + intros _ e1 _ e2 _ H1 H2. rewrite lock_trace_app, H1. exact H2.
    + intros. apply lock_trace_cycle.
    + intros. apply lock_trace_maintenance.
    + intros. apply lock_trace_notify.
  - intros. apply lock_trace_stop.
  - intros. apply lock_trace_start.
  - intros. apply lock_trace_cycle.
  - intros. apply lock_trace_maintenance.
  - intros. apply lock_trace_notify.
Qed.

(** ** The history is only ever appended to *)

Lemma history_extends_refl l l' :
  metrics_history l' = metrics_history l -> history_extends l l'.
Proof.
  intro H. exists [], [], [], []. rewrite H, !app_nil_r. repeat split.
Qed.

Lemma history_extends_trans l1 l2 l3 :
  history_extends l1 l2 -> history_extends l2 l3 -> history_extends l1 l3.
Proof.
  intros (ts & prs & ecs & tps & H1 & H2 & H3 & H4 & L2 & L3 & L4)
         (ts' & prs' & ecs' & tps' & H1' & H2' & H3' & H4' & L2' & L3' & L4').
  exists (ts ++ ts'), (prs ++ prs'), (ecs ++ ecs'), (tps ++ tps').
  rewrite H1', H2', H3', H4', H1, H2, H3, H4, <- !app_assoc, !length_app.
  repeat split; lia.
Qed.

Lemma history_extends_update now l :
  history_extends l (final (_update_metrics now) l).
Proof.
  destruct (update_metrics_run now l) as (_ & -> & _).
  exists [(now - start_time l)%Q], [production_rate l], [error_count l],
    [total_produced l].
  repeat split.
Qed.

Lemma history_kept_cycle r u l :
  metrics_history (final (_simulate_production_cycle r u) l) = metrics_history l.
Proof.
  destruct (cycle_run r u l) as (_ & -> & _).
  apply last_cycle_states_frame.
Qed.

Lemma history_kept_maintenance l :
  metrics_history (final _perform_maintenance l) = metrics_history l.
Proof. destruct (maintenance_run l) as (_ & -> & _). reflexivity. Qed.

Lemma history_kept_start l :
  metrics_history (final start_production l) = metrics_history l.
Proof.
  destruct (start_production_run l) as (_ & -> & _). unfold start_states.
  destruct (MachineState_eqb (state l) IDLE); reflexivity.
Qed.

Lemma history_kept_stop l :
  metrics_history (final stop_production l) = metrics_history l.
Proof.
  destruct (stop_production_run l) as (_ & -> & _). unfold stop_states.
  destruct (MachineState_eqb (state l) RUNNING); reflexivity.
Qed.

(** X2: whatever sequence of operations is applied to a line, its
    [metrics_history] afterwards is the one before with values added at the
    end, the same number to each of the four lists: nothing recorded is ever
    removed or changed, and the lists stay aligned. *)
Theorem history_append_only ops l :
  history_extends l (final (perform_all ops) l).
Proof.
  apply (perform_all_summary (fun a _ b => history_extends a b)
           (fun _ => True)); auto.
  - intro. apply history_extends_refl. reflexivity.
  - intros a _ b _ c. apply history_extends_trans.
  - intros. apply history_extends_refl. reflexivity.
  - intros t l0 _.
    apply (iteration_summary (fun a _ b => history_extends a b)).
    + intros a _ b _ c. apply history_extends_trans.
    + intros. apply history_extends_refl, history_kept_cycle.
    + intros. apply history_extends_refl, history_kept_maintenance.
    + intros. apply history_extends_update.
    + intros. apply history_extends_refl. reflexivity.
    + intros. apply history_extends_refl. reflexivity.
    + intros. apply history_extends_refl. reflexivity.
    + intros. apply history_extends_refl. reflexivity.
  - intros. apply history_extends_refl, history_kept_stop.
  - intros. apply history_extends_refl. reflexivity.
  - intros. apply history_extends_refl, history_kept_start.
  - intros. apply history_extends_refl, history_kept_cycle.
  - intros. apply history_extends_refl, history_kept_maintenance.
  - intros. apply history_extends_update.
  - intros. apply history_extends_refl. reflexivity.
Qed.

(** ** One history entry per completed iteration *)

Lemma completed_iterations_app a b :
  completed_iterations (a ++ b)
  = (completed_iterations a + completed_iterations b)%nat.
Proof.
  induction a as [|ev a IH]; [reflexivity|].
  destruct ev; cbn [app completed_iterations]; rewrite ?IH; lia.
Qed.

Lemma completed_iterations_notify l : completed_iterations (notify_events l) = 0%nat.
Proof.
  unfold notify_events. cbn.
  induction (observers l) as [|o os IH]; [reflexivity | exact IH].
Qed.

Lemma completed_iterations_cycle r u l :
  completed_iterations (events (_simulate_production_cycle r u) l) = 0%nat.
Proof.
  to_wp (_simulate_production_cycle r u) l.
  unfold _simulate_production_cycle. wp_steps.
  destruct (Qltb r (error_threshold (config l))); wp_steps;
    [destruct (_ >? 5); wp_steps|]; reflexivity.
Qed.

Lemma completed_iterations_maintenance l :
  completed_iterations (events _perform_maintenance l) = 0%nat.
Proof.
  to_wp _perform_maintenance l. unfold _perform_maintenance. wp_steps.
  repeat (rewrite ?completed_iterations_app, ?completed_iterations_notify;
          cbn [app completed_iterations]).
  reflexivity.
Qed.

Lemma completed_iterations_stop l :
  completed_iterations (events stop_production l) = 0%nat.
Proof.
  to_wp stop_production l. unfold stop_production. wp_steps.
  destruct (MachineState_eqb (state l) RUNNING); cbn [negb]; wp_steps;
    repeat (rewrite ?completed_iterations_app, ?completed_iterations_notify;
            cbn [app completed_iterations]);
    reflexivity.
Qed.

Lemma completed_iterations_iteration t l :
  completed_iterations (events (loop_iteration t) l)
  = if cycle_faults (err_draw t) l then 0%nat else 1%nat.
Proof.
  rewrite iteration_events.
  rewrite completed_iterations_app, completed_iterations_cycle.
  destruct (cycle_faults (err_draw t) l).
  - cbn [app completed_iterations]. apply completed_iterations_notify.
  - repeat (rewrite ?completed_iterations_app, ?completed_iterations_notify;
            cbn [app completed_iterations]).
    replace (completed_iterations
               (if maintenance_due t l then _ else _)) with 0%nat
      by (destruct (maintenance_due t l);
          [symmetry; apply completed_iterations_maintenance | reflexivity]).
    reflexivity.
Qed.

Lemma entries_follow_iterations ticks l n :
  has_entries n l ->
  has_entries (n + completed_iterations (events (_run_production ticks) l))
    (final (_run_production ticks) l).
Proof.
  revert n.
  apply (run_summary
           (fun a evs b => forall n, has_entries n a ->
                           has_entries (n + completed_iterations evs) b)
           (fun _ => True)).
  - intros a n Hn. rewrite Nat.add_0_r. exact Hn.
  - intros a e1 b e2 c H1 H2 n Hn.
    rewrite completed_iterations_app, Nat.add_assoc. apply H2, H1, Hn.
  - intros f a n Hn. cbn. rewrite Nat.add_0_r. exact Hn.
  - intros t a _ n Hn. rewrite completed_iterations_iteration.
    destruct (iteration_run t a) as (_ & -> & _).
    destruct (cycle_faults (err_draw t) a) eqn:Hf.
    + rewrite Nat.add_0_r. apply (iteration_fault t a n Hf Hn).
    + rewrite Nat.add_1_r. apply (iteration_no_fault t a n Hf Hn).
  - intros a n Hn. rewrite completed_iterations_stop, Nat.add_0_r.
    unfold has_entries in *. rewrite history_kept_stop. exact Hn.
  - apply Forall_forall. auto.
Qed.

(** X3: in a run of a fresh line (a start, then the worker loop over any
    ticks, faults and stops included) the history holds exactly one entry
    per iteration that ran to its end: its four lists have as many values as
    the loop has slept its one second. *)
Theorem history_counts_completed_iterations cfg now ticks :
  let l0 := __init__ cfg now in
  has_entries (completed_iterations (events (run_line ticks) l0))
    (final (run_line ticks) l0).
Proof.
  cbv zeta. destruct (started_fresh cfg now) as [Hf Ho].
  to_wp (run_line ticks) (__init__ cfg now). unfold run_line. wp_step.
  unfold wp at 1. rewrite Ho.
  assert (Hc : completed_iterations (events start_production (__init__ cfg now))
               = 0%nat) by reflexivity.
  assert (H0 : has_entries 0 (final start_production (__init__ cfg now)))
    by (rewrite Hf; repeat split).
  wp_use (entries_follow_iterations ticks _ 0%nat H0).
  intros _ l' evs H. rewrite completed_iterations_app, Hc. exact H.
Qed.

(** ** How much a run produces *)

Lemma int_mono a b : (0 <= a)%Q -> (a <= b)%Q -> int a <= int b.
Proof.
  unfold int, Qle. cbn.
  generalize (Pos2Z.is_pos (Qden a)) (Pos2Z.is_pos (Qden b)).
  generalize (Zpos (Qden a)) (Zpos (Qden b)) (Qnum a) (Qnum b).
  intros da db na nb Hda Hdb Ha Hab.
  assert (Hnb : 0 <= nb) by nia.
  rewrite !Z.quot_div_nonneg by lia.
  apply Z.div_le_lower_bound; [lia|].
  pose proof (Z.mul_div_le na da Hda) as Hq.
  assert (Hq0 : 0 <= na / da) by (apply Z.div_pos; lia).
  nia.
Qed.

Lemma cycle_rate_bounds u ms :
  valid_draw u -> (0 <= ms)%Q ->
  (0 <= (8 # 10) * ms / 60)%Q /\
  ((8 # 10) * ms / 60 <= uniform (8 # 10) 1 u * ms / 60)%Q /\
  (uniform (8 # 10) 1 u * ms / 60 <= ms / 60)%Q.
Proof.
  intros [H0 H1] Hms. unfold Qdiv. change (/ 60)%Q with (1 # 60)%Q.
  assert (Hlo : (8 # 10 <= uniform (8 # 10) 1 u)%Q) by (unfold uniform; lra).
  assert (Hhi : (uniform (8 # 10) 1 u <= 1)%Q) by (unfold uniform; lra).
  split; [|split].
  - apply Qmult_le_0_compat; [|discriminate].
    apply Qmult_le_0_compat; [discriminate | exact Hms].
  - apply Qmult_le_compat_r; [|discriminate].
    apply Qmult_le_compat_r; assumption.
  - apply Qmult_le_compat_r; [|discriminate].
    rewrite <- (Qmult_1_l ms) at 2. apply Qmult_le_compat_r; assumption.
Qed.

Lemma iteration_total t l :
  let l' := final (loop_iteration t) l in
  config l' = config l /\
  total_produced l'
  = if cycle_faults (err_draw t) l then total_produced l
    else total_produced l + int (cycle_rate (rate_draw t) l / 60)%Q.
Proof.
  cbv zeta. destruct (iteration_run t l) as (_ & -> & _).
  unfold iteration_states, cycle_states, cycle_faults, maintenance_states,
    update_states.
  destruct (cycle_errs (err_draw t) l); cbn [andb];
    [destruct (error_count l + 1 >? 5)|];
    try destruct (maintenance_due t l); cbn; auto.
Qed.

Lemma stop_total l :
  config (final stop_production l) = config l /\
  total_produced (final stop_production l) = total_produced l.
Proof.
  destruct (stop_production_run l) as (_ & -> & _). unfold stop_states.
  destruct (MachineState_eqb (state l) RUNNING); cbn; auto.
Qed.

Lemma run_total_bounds ticks l :
  (0 <= max_speed (config l))%Q ->
  Forall (fun t => valid_draw (rate_draw t)) ticks ->
  let k := Z.of_nat (completed_iterations (events (_run_production ticks) l)) in
  let lo := int ((8 # 10) * max_speed (config l) / 60)%Q in
  let hi := int (max_speed (config l) / 60)%Q in
  total_produced l + k * lo <= total_produced (final (_run_production ticks) l)
  <= total_produced l + k * hi.
Proof.
  intros Hms Hgood. cbv zeta.
  enough (H : config (final (_run_production ticks) l) = config l /\
              ((0 <= max_speed (config l))%Q ->
               total_produced l
               + Z.of_nat (completed_iterations (events (_run_production ticks) l))
                 * int ((8 # 10) * max_speed (config l) / 60)%Q
               <= total_produced (final (_run_production ticks) l)
               <= total_produced l
                  + Z.of_nat (completed_iterations
                                (events (_run_production ticks) l))
                    * int (max_speed (config l) / 60)%Q))
    by (apply H, Hms).
  clear Hms. revert Hgood.
  apply (run_summary
           (fun a evs b =>
              config b = config a /\
              ((0 <= max_speed (config a))%Q ->
               total_produced a
               + Z.of_nat (completed_iterations evs)
                 * int ((8 # 10) * max_speed (config a) / 60)%Q
               <= total_produced b
               <= total_produced a
                  + Z.of_nat (completed_iterations evs)
                    * int (max_speed (config a) / 60)%Q))
           (fun t => valid_draw (rate_draw t))).
  - intro a. split; [reflexivity|]. cbn. lia.
  - intros a e1 b e2 c [Hc1 H1] [Hc2 H2]. split; [congruence|].
    intro Hms. rewrite completed_iterations_app, Nat2Z.inj_add.
    specialize (H1 Hms). rewrite Hc1 in H2. specialize (H2 Hms). lia.
  - intros f a. split; [reflexivity|]. cbn. lia.
  - intros t a Hu. destruct (iteration_total t a) as [Hc Htp].
    split; [exact Hc|]. intro Hms.
    rewrite completed_iterations_iteration, Htp.
    destruct (cycle_faults (err_draw t) a); [cbn; lia|].
    destruct (cycle_rate_bounds (rate_draw t) _ Hu Hms) as (H0 & Hlo & Hhi).
    pose proof (int_mono _ _ H0 Hlo) as Hl.
    pose proof (int_mono _ _ (Qle_trans _ _ _ H0 Hlo) Hhi) as Hh.
    unfold cycle_rate. change (Z.of_nat 1) with 1. lia.
  - intro a. destruct (stop_total a) as [Hc Htp]. split; [exact Hc|].
    intros _. rewrite completed_iterations_stop, Htp. cbn. lia.
Qed.

(** X4: in a run of a fresh line whose [max_speed] is not negative, with
    rate draws that [random.random()] can return, [total_produced] ends
    between [k * int(0.8 * max_speed / 60)] and [k * int(max_speed / 60)],
    where [k] is the number of iterations that ran to their end; a faulting
    iteration adds nothing. *)
Theorem run_production_bounds cfg now ticks :
  (0 <= max_speed cfg)%Q ->
  Forall (fun t => valid_draw (rate_draw t)) ticks ->
  let l0 := __init__ cfg now in
  let k := Z.of_nat (completed_iterations (events (run_line ticks) l0)) in
  k * int ((8 # 10) * max_speed cfg / 60)%Q
  <= total_produced (final (run_line ticks) l0)
  <= k * int (max_speed cfg / 60)%Q.
Proof.
  intros Hms Hgood. cbv zeta.
  destruct (started_fresh cfg now) as [Hf Ho].
  to_wp (run_line ticks) (__init__ cfg now). unfold run_line. wp_step.
  unfold wp at 1. rewrite Ho.
  assert (Hc : completed_iterations (events start_production (__init__ cfg now))
               = 0%nat) by reflexivity.
  assert (Hms' : (0 <= max_speed
                   (config (final start_production (__init__ cfg now))))%Q)
    by (rewrite Hf; exact Hms).
  wp_use (run_total_bounds ticks _ Hms' Hgood).
  intros _ l' evs H. rewrite completed_iterations_app, Hc.
  rewrite Hf in H. cbn in H. cbn [Nat.add]. lia.
Qed.

Lemma run_production_bounds_witness :
  let ticks := [sample_tick 0 0; sample_tick (1 # 2) (1 # 2);
                sample_tick (1 # 2) (9 # 10)] in
  let l0 := __init__ _load_config 0 in
  (0 <= max_speed _load_config)%Q /\
  3 * 1 <= total_produced (final (run_line ticks) l0) <= 3 * 1.
Proof.
  cbv zeta. split; [discriminate|].
  apply (run_production_bounds _load_config 0
           [sample_tick 0 0; sample_tick (1 # 2) (1 # 2);
            sample_tick (1 # 2) (9 # 10)]).
  - discriminate.
  - repeat constructor; discriminate.
Defined.

(** ** Stopping, and what can no longer be started *)

Lemma iteration_state t l :
  let l' := final (loop_iteration t) l in
  _running l' = _running l /\
  state l'
  = if cycle_faults (err_draw t) l then ERROR
    else if maintenance_due t l then RUNNING else state l.
Proof.
  cbv zeta. destruct (iteration_run t l) as (_ & -> & _).
  unfold iteration_states, cycle_states, cycle_faults, maintenance_states,
    update_states.
  destruct (cycle_errs (err_draw t) l); cbn [andb];
    [destruct (error_count l + 1 >? 5)|];
    try destruct (maintenance_due t l); cbn; auto.
Qed.

Lemma run_idle ticks l :
  _running l = false ->
  outcome (_run_production ticks) l = Ok Exited /\
  final (_run_production ticks) l = l /\
  events (_run_production ticks) l = [Read f_running].
Proof.
  intro Hrun. unfold outcome, final, events.
  rewrite (run_events_idle ticks l Hrun). repeat split.
Qed.

(** X5: a [stop_production()] that arrives while the worker sleeps after a
    completed cycle is taken (the line was [RUNNING]) and ends the run at
    the next look at the flag: the line is [IDLE], the loop is left, and
    exactly one iteration has run, whatever ticks would follow. *)
Theorem stop_during_sleep_ends_run t rest l :
  _running l = true ->
  state l = RUNNING ->
  cycle_faults (err_draw t) l = false ->
  stop_requested t = true ->
  outcome (_run_production (t :: rest)) l = Ok Exited /\
  state (final (_run_production (t :: rest)) l) = IDLE /\
  _running (final (_run_production (t :: rest)) l) = false /\
  completed_iterations (events (_run_production (t :: rest)) l) = 1%nat /\
  events (_run_production (t :: rest)) l = events (_run_production [t]) l.
Proof.
  intros Hrun Hst Hnf Hstop.
  destruct (run_events_cons t rest l Hrun) as (He & Hf & Ho).
  destruct (run_events_cons t [] l Hrun) as (He' & _).
  cbv zeta in *. rewrite Hnf, Hstop in *. cbn [stop_if] in *.
  destruct (iteration_state t l) as [Hr1 Hs1]. cbv zeta in Hr1, Hs1.
  rewrite Hnf, Hst in Hs1.
  assert (Hs1' : state (final (loop_iteration t) l) = RUNNING)
    by (destruct (maintenance_due t l); exact Hs1).
  set (l1 := final (loop_iteration t) l) in *.
  destruct (stop_production_run l1) as (_ & Hsf & _).
  unfold stop_states in Hsf. rewrite Hs1' in Hsf. cbn in Hsf.
  assert (Hidle : _running (final stop_production l1) = false)
    by (rewrite Hsf; reflexivity).
  destruct (run_idle rest _ Hidle) as (Ho1 & Hf1 & He1).
  destruct (run_idle [] _ Hidle) as (_ & _ & He2).
  rewrite Ho1 in Ho. rewrite Hf1 in Hf. rewrite He1 in He. rewrite He2 in He'.
  split; [exact Ho|]. split; [rewrite Hf, Hsf; reflexivity|].
  split; [rewrite Hf; exact Hidle|].
  split; [|rewrite He, He'; reflexivity].
  rewrite He. cbn [completed_iterations].
  rewrite !completed_iterations_app, completed_iterations_iteration, Hnf,
    completed_iterations_stop.
  reflexivity.
Qed.

Lemma stop_during_sleep_ends_run_witness :
  let t := {| err_draw := 1 # 2; rate_draw := 1 # 2; now_uptime := 1;
              now_metrics := 1; stop_requested := true |} in
  let rest := [sample_tick 0 0; sample_tick 0 0] in
  let l := final start_production (__init__ _load_config 0) in
  _running l = true /\ state l = RUNNING /\
  outcome (_run_production (t :: rest)) l = Ok Exited /\
  state (final (_run_production (t :: rest)) l) = IDLE /\
  completed_iterations (events (_run_production (t :: rest)) l) = 1%nat.
Proof.
  cbv zeta. split; [reflexivity|]. split; [reflexivity|].
  destruct (stop_during_sleep_ends_run
              {| err_draw := 1 # 2; rate_draw := 1 # 2; now_uptime := 1;
                 now_metrics := 1; stop_requested := true |}
              [sample_tick 0 0; sample_tick 0 0]
              (final start_production (__init__ _load_config 0))
              eq_refl eq_refl eq_refl eq_refl)
    as (Ho & Hs & _ & Hc & _).
  split; [exact Ho|]. split; [exact Hs | exact Hc].
Defined.

Lemma threads_started_app a b :
  threads_started (a ++ b) = (threads_started a + threads_started b)%nat.
Proof.
  induction a as [|ev a IH]; [reflexivity|].
  destruct ev; cbn [app threads_started]; rewrite ?IH; reflexivity.
Qed.

Lemma threads_started_notify l : threads_started (notify_events l) = 0%nat.
Proof.
  unfold notify_events. cbn.
  induction (observers l) as [|o os IH]; [reflexivity | exact IH].
Qed.

Lemma command_rejected c l :
  state l = ERROR \/ state l = MAINTENANCE ->
  command c l
  = (Ok tt, l,
     [Acquire; Read f_state;
      Log LOG_WARNING
        (match c with
         | CmdStart => "Cannot start: Machine not in IDLE state"
         | CmdStop => "Cannot stop: Machine not in RUNNING state"
         end);
      Release]).
Proof.
  intro Hst.
  destruct c; cbn [command]; unfold start_production, stop_production;
    unfold bind, with_lock, read, log, emit, ret;
    destruct Hst as [-> | ->]; reflexivity.
Qed.

(** X6: once the line is in [ERROR] (or in [MAINTENANCE]), every
    [start_production()] and [stop_production()] is turned down: whatever
    sequence of calls follows, no attribute is written, no observer is
    called and no thread is started, each call leaving only its warning in
    the log.  The code has no way out of [ERROR]. *)
Theorem error_state_rejects_commands cs l :
  state l = ERROR \/ state l = MAINTENANCE ->
  outcome (commands cs) l = Ok tt /\
  final (commands cs) l = l /\
  states_of (events (commands cs) l) = [] /\
  updates_of (events (commands cs) l) = [] /\
  threads_started (events (commands cs) l) = 0%nat.
Proof.
  intro Hst. induction cs as [|c cs IH]; [repeat split|].
  destruct IH as (Ho & Hf & Hs & Hu & Ht).
  unfold commands in *. cbn [for_each].
  unfold outcome, final, events, bind in *.
  rewrite (command_rejected c l Hst).
  destruct (for_each cs command l) as [[r l'] evs]. cbn [fst snd] in *.
  subst r l'. cbn. auto.
Qed.

Lemma error_state_rejects_commands_witness :
  let l := final (run_line (repeat (sample_tick 0 0) 6))
             (__init__ forced_error_config 0) in
  let cs := [CmdStop; CmdStart; CmdStart; CmdStop] in
  state l = ERROR /\ _running l = true /\
  final (commands cs) l = l /\
  threads_started (events (commands cs) l) = 0%nat.
Proof.
  cbv zeta. split; [reflexivity|]. split; [reflexivity|].
  destruct (error_state_rejects_commands
              [CmdStop; CmdStart; CmdStart; CmdStop]
              (final (run_line (repeat (sample_tick 0 0) 6))
                 (__init__ forced_error_config 0))
              (or_introl eq_refl))
    as (_ & Hf & _ & _ & Ht).
  split; [exact Hf | exact Ht].
Defined.



(** ** Observers *)




Lemma stops_taken_app a b :
  stops_taken (a ++ b) = (stops_taken a + stops_taken b)%nat.
Proof.
  induction a as [|ev a IHa]; [reflexivity|].
  destruct ev; cbn [app stops_taken]; try apply IHa.
  destruct f; cbn [app stops_taken]; try apply IHa.
  rewrite IHa. lia.
Qed.

Lemma stops_taken_notify l : stops_taken (notify_events l) = 0%nat.
Proof.
  unfold notify_events. cbn.
  induction (observers l) as [|o os IH]; [reflexivity | exact IH].
Qed.

(** X9: in any sequence of [start_production()] / [stop_production()] calls
    on a fresh line, the threads started are one more than the stops taken
    when the line ends [RUNNING] and as many when it ends [IDLE]: a start
    creates a thread exactly when it is taken, and two threads are never
    started without a stop taken in between. *)
Theorem threads_follow_starts cfg now cs :
  let l0 := __init__ cfg now in
  let evs := events (commands cs) l0 in
  threads_started evs
  = (stops_taken evs
     + (if MachineState_eqb (state (final (commands cs) l0)) RUNNING
        then 1 else 0))%nat.
Proof.
  cbv zeta.
  enough (H : forall l, idle_or_running l ->
            (threads_started (events (commands cs) l)
             + (if MachineState_eqb (state l) RUNNING then 1 else 0)
             = stops_taken (events (commands cs) l)
               + (if MachineState_eqb (state (final (commands cs) l)) RUNNING
                  then 1 else 0))%nat)
    by (specialize (H (__init__ cfg now) (or_introl eq_refl)); cbn in H;
        cbn; lia).
  induction cs as [|c cs IH]; intros l Hl; [cbn; lia|].
  destruct (command_idle_or_running c l Hl) as [Ho Hl'].
  specialize (IH _ Hl').
  to_wp (commands (c :: cs)) l. unfold commands. cbn [for_each]. wp_step.
  fold (commands cs).
  assert (Hc : (threads_started (events (command c) l)
                + (if MachineState_eqb (state l) RUNNING then 1 else 0)
                = stops_taken (events (command c) l)
                  + (if MachineState_eqb (state (final (command c) l)) RUNNING
                     then 1 else 0))%nat).
  { clear IH Ho Hl'. to_wp (command c) l.
    destruct c; cbn [command];
      [unfold start_production | unfold stop_production]; wp_steps;
      destruct Hl as [Hst | Hst]; rewrite Hst; cbn [MachineState_eqb negb];
      wp_steps;
      rewrite ?threads_started_app, ?stops_taken_app, ?threads_started_notify,
        ?stops_taken_notify;
      cbn; rewrite ?Hst; reflexivity. }
  unfold wp at 1. rewrite Ho. unfold wp.
  rewrite threads_started_app, stops_taken_app. lia.
Qed.

(** ** Maintenance in every iteration *)



(** ** What an iteration records and what it tells the observers *)




(** ** The observer classes *)


Lemma update_cases o st m :
  update o st m
  = if String.eqb (obs_class o) "Visualizer" then inl (KeyError "time")
    else inr tt.
Proof. unfold update. destruct (String.eqb (obs_class o) "Visualizer"); reflexivity. Qed.

Lemma for_each_checked_ok m obs l :
  Forall (fun o => obs_class o <> "Visualizer"%string) obs ->
  for_each_checked obs (fun observer =>
    st <- read f_state state ;;
    emit (Update observer st m) ;;
    ret (update observer st m)) l
  = (Ok (inr tt), l,
     flat_map (fun o => [Read f_state; Update o (state l) m]) obs).
Proof.
  induction 1 as [|o obs Ho _ IH]; [reflexivity|].
  cbn [for_each_checked flat_map]. unfold bind_checked at 1.
  unfold bind at 1 2 3. cbn. rewrite update_cases.
  apply String.eqb_neq in Ho. rewrite Ho. rewrite IH. reflexivity.
Qed.

Lemma for_each_checked_fail m before v after l :
  Forall (fun o => obs_class o <> "Visualizer"%string) before ->
  obs_class v = "Visualizer"%string ->
  for_each_checked (before ++ v :: after) (fun observer =>
    st <- read f_state state ;;
    emit (Update observer st m) ;;
    ret (update observer st m)) l
  = (Ok (inl (KeyError "time")), l,
     flat_map (fun o => [Read f_state; Update o (state l) m]) (before ++ [v])).
Proof.
  intros Hbefore Hv.
  induction Hbefore as [|o obs Ho _ IH]; cbn [app for_each_checked flat_map];
    unfold bind_checked at 1; unfold bind at 1 2 3; cbn; rewrite update_cases.
  - rewrite Hv. reflexivity.
  - apply String.eqb_neq in Ho. rewrite Ho. rewrite IH. reflexivity.
Qed.

Lemma notify_checked_ok l :
  Forall (fun o => obs_class o <> "Visualizer"%string) (observers l) ->
  notify_observers_checked l = (Ok (inr tt), l, notify_events l).
Proof.
  intro Hobs. unfold notify_observers_checked, notify_events.
  unfold bind at 1 2 3 4 5; cbn.
  rewrite (for_each_checked_ok _ _ _ Hobs). reflexivity.
Qed.

Lemma notify_checked_fail l before v after :
  observers l = before ++ v :: after ->
  Forall (fun o => obs_class o <> "Visualizer"%string) before ->
  obs_class v = "Visualizer"%string ->
  notify_observers_checked l
  = (Ok (inl (KeyError "time")), l,
     [Read f_production_rate; Read f_error_count; Read f_total_produced;
      Read f_uptime; Read f_observers]
     ++ flat_map (fun o => [Read f_state; Update o (state l) (snapshot l)])
          (before ++ [v])).
Proof.
  intros Hobs Hbefore Hv. unfold notify_observers_checked.
  unfold bind at 1 2 3 4 5; cbn. rewrite Hobs.
  rewrite (for_each_checked_fail _ _ _ after _ Hbefore Hv). reflexivity.
Qed.

Lemma run_eq_wp {A} (m : M A) l r :
  wp m (fun a b c => (a, b, c) = r) l -> m l = r.
Proof.
  unfold wp, outcome, final, events. destruct (m l) as [[a b] c]. exact (fun H => H).
Qed.

Lemma start_production_eq l :
  start_production l
  = if MachineState_eqb (state l) IDLE then
      (Ok tt, set_running true (set_state RUNNING l),
       start_prefix l
       ++ notify_events (set_running true (set_state RUNNING l)) ++ [Spawn])
    else
      (Ok tt, l,
       [Acquire; Read f_state;
        Log LOG_WARNING "Cannot start: Machine not in IDLE state"; Release]).
Proof.
  apply run_eq_wp. unfold start_production. wp_steps.
  destruct (MachineState_eqb (state l) IDLE); cbn [negb]; wp_steps;
    rewrite ?app_nil_r; reflexivity.
Qed.

Lemma stop_production_eq l :
  stop_production l
  = if MachineState_eqb (state l) RUNNING then
      (Ok tt, set_state IDLE (set_running false l),
       stop_prefix l ++ notify_events (set_state IDLE (set_running false l)))
    else
      (Ok tt, l,
       [Acquire; Read f_state;
        Log LOG_WARNING "Cannot stop: Machine not in RUNNING state"; Release]).
Proof.
  apply run_eq_wp. unfold stop_production. wp_steps.
  destruct (MachineState_eqb (state l) RUNNING); cbn [negb]; wp_steps;
    rewrite ?app_nil_r; reflexivity.
Qed.

Lemma start_checked_eq l :
  start_production_checked l
  = if MachineState_eqb (state l) IDLE then
      match notify_observers_checked (set_running true (set_state RUNNING l)) with
      | (Ok (inr _), l1, e1) => (Ok (inr tt), l1, start_prefix l ++ e1 ++ [Spawn])
      | (Ok (inl e), l1, e1) => (Ok (inl e), l1, start_prefix l ++ e1)
      | (Raise x, l1, e1) => (Raise x, l1, start_prefix l ++ e1)
      end
    else
      (Ok (inr tt), l,
       [Acquire; Read f_state;
        Log LOG_WARNING "Cannot start: Machine not in IDLE state"; Release]).
Proof.
  apply run_eq_wp. unfold start_production_checked. wp_steps.
  destruct (MachineState_eqb (state l) IDLE); cbn [negb]; wp_steps;
    [|reflexivity].
  unfold bind_checked. wp_step. unfold wp at 1, outcome, final, events.
  destruct (notify_observers_checked _) as [[[[e|[]]|x] l1] e1];
    cbn [fst snd]; wp_steps; rewrite ?app_nil_r; reflexivity.
Qed.

Lemma stop_checked_eq l :
  stop_production_checked l
  = if MachineState_eqb (state l) RUNNING then
      match notify_observers_checked (set_state IDLE (set_running false l)) with
      | (r, l1, e1) => (r, l1, stop_prefix l ++ e1)
      end
    else
      (Ok (inr tt), l,
       [Acquire; Read f_state;
        Log LOG_WARNING "Cannot stop: Machine not in RUNNING state"; Release]).
Proof.
  apply run_eq_wp. unfold stop_production_checked. wp_steps.
  destruct (MachineState_eqb (state l) RUNNING); cbn [negb]; wp_steps;
    [|reflexivity].
  unfold wp, outcome, final, events.
  destruct (notify_observers_checked _) as [[r l1] e1]. reflexivity.
Qed.

(** As long as no [Visualizer] is registered, the start and the stop
    that let observer failures through do what [start_production] and
    [stop_production] do with observers that return normally: same result,
    same attributes, same effects. *)
Theorem checked_calls_agree l :
  Forall (fun o => obs_class o <> "Visualizer"%string) (observers l) ->
  start_production_checked l
  = (Ok (inr tt), final start_production l, events start_production l) /\
  stop_production_checked l
  = (Ok (inr tt), final stop_production l, events stop_production l).
Proof.
  intro Hobs. unfold final, events.
  rewrite start_checked_eq, stop_checked_eq, start_production_eq,
    stop_production_eq.
  rewrite !notify_checked_ok by exact Hobs.
  split.
  - destruct (MachineState_eqb (state l) IDLE); reflexivity.
  - destruct (MachineState_eqb (state l) RUNNING); reflexivity.
Qed.

Lemma checked_calls_agree_witness :
  let l := final (register_observer data_logger) (__init__ _load_config 0) in
  observers l = [data_logger] /\
  start_production_checked l
  = (Ok (inr tt), final start_production l, events start_production l).
Proof.
  cbv zeta. split; [reflexivity|].
  apply (checked_calls_agree
           (final (register_observer data_logger) (__init__ _load_config 0))).
  repeat constructor. discriminate.
Defined.

(** X13: with a [Visualizer] among the observers, a start that is taken
    sets [RUNNING] and the flag, calls the observers up to the first
    [Visualizer], and ends there with its [KeyError('time')]: the observers
    registered after it are not called and no worker thread is started.  The
    line is left [RUNNING] with nothing running it, and the lock is free. *)
Theorem visualizer_aborts_start l before v after :
  state l = IDLE ->
  observers l = before ++ v :: after ->
  Forall (fun o => obs_class o <> "Visualizer"%string) before ->
  obs_class v = "Visualizer"%string ->
  let m := start_production_checked in
  outcome m l = Ok (inl (KeyError "time")) /\
  final m l = set_running true (set_state RUNNING l) /\
  updates_of (events m l)
  = map (fun o => (o, RUNNING, snapshot l)) (before ++ [v]) /\
  threads_started (events m l) = 0%nat /\
  lock_trace false (events m l) = Some false.
Proof.
  intros Hst Hobs Hbefore Hv. cbv zeta.
  unfold outcome, final, events. rewrite start_checked_eq, Hst.
  cbn [MachineState_eqb].
  rewrite (notify_checked_fail _ before v after) by assumption.
  cbn [fst snd]. split; [reflexivity|]. split; [reflexivity|].
  unfold start_prefix. cbn [app updates_of threads_started lock_trace].
  generalize (before ++ [v]). intro os.
  repeat split; induction os as [|o os IH]; cbn; try reflexivity;
    try (f_equal; exact IH); exact IH.
Qed.

Lemma visualizer_aborts_start_witness :
  let l := final (register_observer data_logger ;;
                  register_observer visualizer ;;
                  register_observer data_logger) (__init__ _load_config 0) in
  state l = IDLE /\
  observers l = [data_logger] ++ visualizer :: [data_logger] /\
  outcome start_production_checked l = Ok (inl (KeyError "time")) /\
  state (final start_production_checked l) = RUNNING /\
  threads_started (events start_production_checked l) = 0%nat.
Proof.
  cbv zeta. split; [reflexivity|]. split; [reflexivity|].
  destruct (visualizer_aborts_start
              (final (register_observer data_logger ;;
                      register_observer visualizer ;;
                      register_observer data_logger) (__init__ _load_config 0))
              [data_logger] visualizer [data_logger] eq_refl eq_refl)
    as (Ho & Hf & _ & Ht & _).
  - repeat constructor. discriminate.
  - reflexivity.
  - split; [exact Ho|]. split; [rewrite Hf; reflexivity | exact Ht].
Defined.

(** X14: [main], as written, never gets production going.  It registers the
    [Visualizer] first, so the notification inside [start_production()]
    fails with [KeyError('time')]; [main] logs [System error: 'time'] and
    returns.  The [DataLogger] is never called, no thread is started, the
    plot is never shown, and the line is left [RUNNING] with
    [total_produced = 0]. *)
Theorem main_never_starts_the_worker show_plot cfg now :
  let l0 := __init__ cfg now in
  outcome (main show_plot) l0 = Ok tt /\
  final (main show_plot) l0
  = set_running true
      (set_state RUNNING
         (set_observers [visualizer; data_logger] (__init__ cfg now))) /\
  total_produced (final (main show_plot) l0) = 0 /\
  updates_of (events (main show_plot) l0)
  = [(visualizer, RUNNING, snapshot l0)] /\
  threads_started (events (main show_plot) l0) = 0%nat /\
  completed_iterations (events (main show_plot) l0) = 0%nat /\
  logged "System error: 'time'" (events (main show_plot) l0) = 1%nat /\
  events (main show_plot) l0 = events (main (ret tt)) l0.
Proof.
  cbv zeta.
  set (l2 := set_observers [visualizer; data_logger] (__init__ cfg now)).
  assert (Hstart : start_production_checked l2
            = (Ok (inl (KeyError "time")), set_running true (set_state RUNNING l2),
               start_prefix l2
               ++ [Read f_production_rate; Read f_error_count;
                   Read f_total_produced; Read f_uptime; Read f_observers]
               ++ [Read f_state; Update visualizer RUNNING (snapshot l2)])).
  { rewrite start_checked_eq. cbn [state l2 set_observers __init__ MachineState_eqb].
    rewrite (notify_checked_fail _ [] visualizer [data_logger]);
      [reflexivity | reflexivity | constructor | reflexivity]. }
  assert (Hmain : forall show,
            main show (__init__ cfg now)
            = (Ok tt, set_running true (set_state RUNNING l2),
               [Read f_observers;
                Write f_observers (set_observers [visualizer] (__init__ cfg now));
                Log LOG_INFO "Registered observer: Visualizer";
                Read f_observers; Write f_observers l2;
                Log LOG_INFO "Registered observer: DataLogger"]
               ++ (start_prefix l2
                   ++ [Read f_production_rate; Read f_error_count;
                       Read f_total_produced; Read f_uptime; Read f_observers]
                   ++ [Read f_state; Update visualizer RUNNING (snapshot l2)])
               ++ [Log LOG_ERROR "System error: 'time'"])).
  { intro show. apply run_eq_wp. unfold main, bind_checked. wp_step. wp_step.
    wp_step. unfold register_observer at 1. wp_steps.
    unfold register_observer at 1. wp_steps.
    lazymatch goal with
    | |- wp start_production_checked ?Q _ =>
        change (wp start_production_checked Q l2)
    end.
    unfold wp at 1, outcome, final, events. rewrite Hstart. cbn [fst snd].
    wp_steps. cbn [str_error]. wp_steps.
    rewrite ?app_nil_r. reflexivity. }
  unfold outcome, final, events. rewrite !Hmain. cbn [fst snd].
  repeat split.
Qed.

(** ** The configuration singleton *)

Lemma Configuration_calls_loaded n c :
  Configuration_calls n (Some c)
  = (repeat c n, Some c, List.concat (repeat [Acquire; Release] n)).
Proof.
  induction n as [|n IH]; [reflexivity|].
  cbn [Configuration_calls Configuration_new]. rewrite IH. reflexivity.
Qed.

Lemma quiet_calls n :
  logged "Configuration loaded" (List.concat (repeat [Acquire; Release] n)) = 0%nat /\
  lock_trace false (List.concat (repeat [Acquire; Release] n)) = Some false.
Proof. induction n as [|n [IH1 IH2]]; split; cbn; auto. Qed.

(** X15: however often [Configuration()] is called, every call returns the
    same instance: the one already there, with whatever values it holds, or
    else the one that the first call creates with the defaults.  The
    defaults are loaded, and [Configuration loaded] is logged, by the first
    call only and only when there was no instance; the class lock is taken
    and given back by each call. *)
Theorem configuration_is_loaded_once n inst :
  let c := match inst with Some c => c | None => _load_config end in
  let r := Configuration_calls (S n) inst in
  fst (fst r) = repeat c (S n) /\
  snd (fst r) = Some c /\
  logged "Configuration loaded" (snd r)
  = (match inst with None => 1 | Some _ => 0 end)%nat /\
  lock_trace false (snd r) = Some false.
Proof.
  cbv zeta. destruct (quiet_calls n) as [Hlog Hlock].
  destruct inst as [c|].
  - rewrite Configuration_calls_loaded. destruct (quiet_calls (S n)). auto.
  - cbn [Configuration_calls Configuration_new].
    rewrite Configuration_calls_loaded. cbn [fst snd repeat app logged].
    cbn [lock_trace]. rewrite Hlog. cbn. auto.
Qed.

(** ** The times in the history *)

Lemma ascending_snoc {A} (lt : A -> A -> Prop) xs x :
  ascending lt xs -> Forall (fun y => lt y x) xs -> ascending lt (xs ++ [x]).
Proof.
  induction xs as [|y xs IH]; intros Hasc Hall; [cbn; auto|].
  destruct Hasc as [Hy Hxs]. inversion Hall as [|? ? Hyx Hrest]; subst.
  cbn [app ascending]. split; [|apply IH; assumption].
  apply Forall_app. split; [exact Hy | constructor; [exact Hyx | constructor]].
Qed.

Lemma iteration_times t l :
  let l' := final (loop_iteration t) l in
  start_time l' = start_time l /\
  h_time (metrics_history l')
  = if cycle_faults (err_draw t) l then h_time (metrics_history l)
    else h_time (metrics_history l) ++ [(now_metrics t - start_time l)%Q].
Proof.
  cbv zeta. destruct (iteration_run t l) as (_ & -> & _).
  unfold iteration_states, cycle_states, cycle_faults, maintenance_states,
    update_states.
  destruct (cycle_errs (err_draw t) l); cbn [andb];
    [destruct (error_count l + 1 >? 5)|];
    try destruct (maintenance_due t l); cbn; auto.
Qed.

Lemma stop_if_times b l :
  start_time (final (stop_if b) l) = start_time l /\
  h_time (metrics_history (final (stop_if b) l)) = h_time (metrics_history l).
Proof.
  destruct (stop_if_run b l) as (_ & -> & _). unfold stop_states.
  destruct b; [destruct (MachineState_eqb (state l) RUNNING)|]; cbn; auto.
Qed.

Lemma run_times_ascend ticks : forall l,
  ascending Qlt (h_time (metrics_history l)) ->
  Forall (fun x => Forall (fun t => (x < now_metrics t - start_time l)%Q) ticks)
    (h_time (metrics_history l)) ->
  ascending clock_before ticks ->
  ascending Qlt (h_time (metrics_history (final (_run_production ticks) l))).
Proof.
  induction ticks as [|t rest IH]; intros l Hasc Hbelow Hclock;
    (destruct (_running l) eqn:Hrun;
     [|match goal with
       | |- context [_run_production ?ts] =>
           destruct (run_idle ts l Hrun) as (_ & -> & _); exact Hasc
       end]).
  - destruct (run_production_nil l Hrun) as (_ & -> & _). exact Hasc.
  - destruct (run_events_cons t rest l Hrun) as (_ & -> & _).
    destruct (iteration_times t l) as [Hs1 Ht1]. cbv zeta in Hs1, Ht1.
    destruct (cycle_faults (err_draw t) l); [rewrite Ht1; exact Hasc|].
    destruct (stop_if_times (stop_requested t) (final (loop_iteration t) l))
      as [Hs2 Ht2].
    destruct Hclock as [Hhead Hrest].
    apply IH; [| |exact Hrest]; rewrite ?Hs2, ?Hs1, Ht2, Ht1.
    + apply ascending_snoc; [exact Hasc|].
      eapply Forall_impl; [|exact Hbelow].
      intros x Hx. inversion Hx; assumption.
    + apply Forall_app. split.
      * eapply Forall_impl; [|exact Hbelow].
        intros x Hx. inversion Hx; assumption.
      * constructor; [|constructor].
        eapply Forall_impl; [|exact Hhead].
        unfold clock_before. intros t' Hlt. lra.
Qed.

(** X16: in a run of a fresh line, if the clock readings taken for the
    history go up from one tick to the next, the times recorded in the
    history are strictly increasing. *)
Theorem history_times_increase cfg now ticks :
  ascending clock_before ticks ->
  ascending Qlt
    (h_time (metrics_history (final (run_line ticks) (__init__ cfg now)))).
Proof.
  intro Hclock. destruct (started_fresh cfg now) as [Hf Ho].
  to_wp (run_line ticks) (__init__ cfg now). unfold run_line. wp_step.
  unfold wp at 1. rewrite Ho.
  assert (H : ascending Qlt
            (h_time (metrics_history
               (final (_run_production ticks)
                  (final start_production (__init__ cfg now))))))
    by (apply run_times_ascend; [rewrite Hf; exact I
                                | rewrite Hf; constructor | exact Hclock]).
  wp_use H. auto.
Qed.

Lemma history_times_increase_witness :
  let ticks := [{| err_draw := 1 # 2; rate_draw := 0; now_uptime := 1;
                   now_metrics := 1; stop_requested := false |};
                {| err_draw := 0; rate_draw := 0; now_uptime := 2;
                   now_metrics := 5 # 2; stop_requested := false |}] in
  ascending clock_before ticks /\
  ascending Qlt
    (h_time (metrics_history (final (run_line ticks) (__init__ _load_config 0)))).
Proof.
  cbv zeta.
  assert (H : ascending clock_before
                [{| err_draw := 1 # 2; rate_draw := 0; now_uptime := 1;
                    now_metrics := 1; stop_requested := false |};
                 {| err_draw := 0; rate_draw := 0; now_uptime := 2;
                    now_metrics := 5 # 2; stop_requested := false |}])
    by (cbn; repeat split; repeat constructor).
  split; [exact H|].
  apply (history_times_increase _load_config 0 _ H).
Defined.
